(** * The XNAT repository cache of arcana2 ([arcana2/repositories/xnat.py])

    A shallow embedding of the download cache of the [Xnat] repository class:
    the layout of the cache ([cache_path]), the checksum manifests
    ([get_checksums]), the download protocol ([get_file_group_paths],
    [download_file_group], [_delayed_download]), the upload
    ([put_file_group]) and the escaping of item names ([escape_name],
    [unescape_name]).  Python strings are [string], dictionaries are [gmap],
    exceptions are values of [exn], and the methods that touch the disk or
    the server are computations in a state-and-exception monad that also
    records every primitive operation in a trace. *)

From Stdlib Require Import String Ascii List ZArith Lia Bool.
From stdpp Require Import base option gmap strings list.

Local Open Scope Z_scope.
Local Open Scope nat_scope.

(** ** Python strings *)

Module PyStr.

(** [s.split(sep)] for a non-empty separator: the occurrences of [sep] are
    found from the left and do not overlap.  [skip] counts the characters
    of a separator that was just matched and that are still to be dropped,
    [cur] is the piece read so far. *)
Fixpoint split_from (sep : string) (skip : nat) (cur s : string) : list string :=
  match s with
  | EmptyString => [cur]
  | String c s' =>
      match skip with
      | S k => split_from sep k cur s'
      | O =>
          if String.prefix sep s
          then cur :: split_from sep (String.length sep - 1) "" s'
          else split_from sep 0 (cur +:+ String c "") s'
      end
  end.

Definition split (sep s : string) : list string := split_from sep 0 "" s.

(** [sep.join(l)] *)
Definition join (sep : string) (l : list string) : string := String.concat sep l.

Fixpoint last_char (s : string) : option ascii :=
  match s with
  | EmptyString => None
  | String c EmptyString => Some c
  | String _ s' => last_char s'
  end.

(** [s.startswith('/')] and [s.endswith('/')] *)
Definition startswith_sep (s : string) : bool := String.prefix "/" s.

Definition endswith_sep (s : string) : bool :=
  match last_char s with
  | Some c => Ascii.eqb c "/"
  | None => false
  end.

(** One turn of the loop of [posixpath.join]. *)
Definition join_step (path b : string) : string :=
  if startswith_sep b then b
  else if String.eqb path "" || endswith_sep path then path +:+ b
  else path +:+ "/" +:+ b.

(** [os.path.join(a, *p)] *)
Definition op_join (a : string) (p : list string) : string :=
  fold_left join_step p a.

(** A string without ['/']. *)
Fixpoint slash_free (s : string) : bool :=
  match s with
  | EmptyString => true
  | String c s' => negb (Ascii.eqb c "/") && slash_free s'
  end.

(** A path segment: not empty, and without ['/']. *)
Definition segment (s : string) : Prop := s <> "" /\ slash_free s = true.

(** The separator [posixpath.join] puts after [path]. *)
Definition sep_after (path : string) : string :=
  if String.eqb path "" || endswith_sep path then "" else "/".

(** The segments [r], each after a ['/']. *)
Fixpoint slashed (r : list string) : string :=
  match r with
  | [] => ""
  | b :: r' => "/" +:+ b +:+ slashed r'
  end.

End PyStr.

(** ** Exceptions *)

Inductive errno := EEXIST | ENOENT | ENOTDIR | EISDIR.

(** The exceptions the methods raise.  [OSError] is also Python's [IOError]:
    the two names denote one class.  [Unmodelled] is no exception of Python:
    it ends a run in the one case the model of the disk leaves out (see
    [move_data]). *)
Inductive exn :=
| ArcanaError
| ArcanaUsageError
| ArcanaFileFormatError
| ArcanaWrongRepositoryError
| OSError (e : errno)
| BadZipfile
| JSONDecodeError
| KeyError
| IndexError
| ValueError
| AttributeError
| UnboundLocalError
| RecursionError
| XNATResponseError
| Unmodelled.

Definition result (A : Type) : Type := (exn + A)%type.

#[global] Instance errno_eq_dec : EqDecision errno.
Proof. solve_decision. Defined.

#[global] Instance exn_eq_dec : EqDecision exn.
Proof. solve_decision. Defined.

(** [except IOError] *)
Definition is_IOError (e : exn) : bool :=
  match e with OSError _ => true | _ => false end.

(** ** The [Clinical] enumeration

    The enumeration is declared in [arcana2.dimensions.clinical], outside
    these sources.  Its members are the eight named in [test_enum.py]; the
    values are bit patterns over the three axes member, group and timepoint,
    which is what [unescape_name] builds with [Clinical(freq_value)] from
    [0b0]. *)

Module Clinical.

Inductive t :=
| dataset | member | group | timepoint
| subject | matchedpoint | batch | session.

Definition value (f : t) : Z :=
  match f with
  | dataset => 0 | member => 1 | group => 2 | timepoint => 4
  | subject => 3 | matchedpoint => 5 | batch => 6 | session => 7
  end%Z.

(** [Clinical(v)] *)
Definition of_value (v : Z) : result t :=
  match v with
  | 0 => inr dataset | 1 => inr member | 2 => inr group | 4 => inr timepoint
  | 3 => inr subject | 5 => inr matchedpoint | 6 => inr batch | 7 => inr session
  | _ => inl ValueError
  end%Z.

(** [Clinical[name]] *)
Definition of_name (s : string) : result t :=
  if String.eqb s "dataset" then inr dataset
  else if String.eqb s "member" then inr member
  else if String.eqb s "group" then inr group
  else if String.eqb s "timepoint" then inr timepoint
  else if String.eqb s "subject" then inr subject
  else if String.eqb s "matchedpoint" then inr matchedpoint
  else if String.eqb s "batch" then inr batch
  else if String.eqb s "session" then inr session
  else inl KeyError.

(** [a.is_parent(b)]: the axes of [a] are among those of [b], and [a] is
    not [b]; it is the table that [test_is_parent] checks. *)
Definition is_parent (a b : t) : bool :=
  Z.eqb (Z.land (value a) (value b)) (value a) && negb (Z.eqb (value a) (value b)).

#[global] Instance eq_dec : EqDecision t.
Proof. solve_decision. Defined.

#[global] Instance countable : Countable t.
Proof.
  refine (inj_countable' (fun f => Z.to_nat (value f))
            (fun n => match of_value (Z.of_nat n) with inr f => f | inl _ => dataset end) _).
  intros []; reflexivity.
Defined.

End Clinical.

(** ** The objects the methods receive *)

(** A file format ([file_group.data_format]).  [assort_files] is the method
    of [FileFormat] that picks the primary file among file names and returns
    it with the side cars (auxiliary name, path); it is declared outside
    these sources and is kept as a field. *)
Record FileFormat := {
  directory : bool;
  assort_files : list string -> result (string * list (string * string));
}.

Record DataNode := {
  frequency : Clinical.t;
  ids : gmap Clinical.t string;
  (** [data_node.dataset.repository], as the identity of a repository object *)
  repository : nat;
}.

(** A file group.  [name_path] is the sequence that [escape_name] joins. *)
Record FileGroup := {
  name : string;
  name_path : list string;
  uri : option string;
  (** [file_group.id] *)
  item_id : option string;
  derived : bool;
  data_format : option FileFormat;
  data_format_name : string;
  data_node : DataNode;
  local_cache : string;
  fname : string;
  aux_file_fnames_and_paths : list (string * string);
  (** the result of [calculate_checksums()], the digests of the local files *)
  calculate_checksums : gmap string string;
  (** the file name of the provenance record, when the item has one *)
  provenance : option string;
}.

(** The attributes of an [Xnat] object.  [ident] stands for the identity of
    the object ([is]).  The class declares [race_condition_delay], while
    [get_file_group_paths] reads [self._race_cond_delay], and
    [put_provenance] reads [self.PROV_RESOURCE], which the class does not
    declare either; whether the base class [Repository] (outside these
    sources) supplies them is not known, so both are optional fields: [None]
    is a missing attribute. *)
Record Xnat := {
  ident : nat;
  server : string;
  cache_dir : string;
  check_md5 : bool;
  race_condition_delay : nat;
  _race_cond_delay : option nat;
  PROV_RESOURCE : option string;
}.

Definition MD5_SUFFIX : string := ".md5.json".

(** ** The local disk *)

(** A zip archive as [download_stream] delivers it: unreadable, or readable.
    Of a readable archive the model keeps what [download_file_group] takes
    from its expansion, the content of the first directory named [files]
    that [glob] finds under it ([None] when there is none). *)
Inductive zipfile :=
| BadZip
| GoodZip (data_root : option (gmap string string)).

(** The content of a file. *)
Inductive fdata :=
| Empty                                (* a file of length zero *)
| JsonText (m : gmap string string)    (* the text [json.dump] writes for [m] *)
| ZipBytes (z : zipfile)
| Bytes (b : string).                  (* anything else; not JSON *)

(** What a path of the disk holds.  A directory has a modification time (the
    latest over its content), the files directly in it and, when it has been
    used for a download, the sub-directory [expanded]: [Some None] when no
    directory [files] lies under it, [Some (Some t)] when one does, with the
    files [t]. *)
Inductive node :=
| File (d : fdata)
| Dir (mtime : nat) (entries : gmap string fdata)
      (expanded : option (option (gmap string string))).

(** The disk: the paths that exist, with what they hold.  The paths the
    methods use ([cache_path], the manifest beside it, the download
    directory beside it, the local files of an item) are separate keys. *)
Abbreviation disk := (gmap string node).

(** ** The XNAT server *)

Record XResource := {
  label : string;
  format : string;
  uploaded : list string;
}.

Record XScan := {
  xscan_id : string;
  xscan_resources : gmap string XResource;
}.

(** What the server answers for a resource URI: the result of
    [GET uri/files] (name and digest of each file, in order) and the zip
    archive of the files. *)
Record RemoteFiles := {
  listing : list (string * string);
  archive : zipfile;
}.

(** The node of the item ([get_xnode(file_group.data_node)]) with the URI that
    [standard_uri] gives for it, its resources and scans, and the files the
    server holds for each resource URI. *)
Record Server := {
  node_uri : string;
  resources : gmap string XResource;
  scans : gmap string XScan;
  files : gmap string RemoteFiles;
}.

(** ** Primitive operations and the trace *)

Inductive event :=
| Makedirs (p : string)
| Mkdir (p : string)
| Rmtree (p : string)
| OpenWrite (p : string)
| Write (p : string)
| JsonDump (p : string) (m : gmap string string)
| Extractall (src dst : string)
| Move (src dst : string)
| CopyFile (src dst : string)
| CopyTree (src dst : string)
| Sleep (d : nat)
| GetJson (u : string)
| DownloadStream (u : string)
| ResourceDelete (l : string)
| ResourceCreate (l fmt : string)
| Upload (l fname : string).

(** The state the methods run in: the disk, the clock, what the other
    processes do to the disk during each of our successive sleeps, the
    server, the file group the methods are called on (they assign its
    [uri]), the depth of recursion the interpreter still allows, and the
    trace: every primitive operation, with the disk and the resources of the
    node as it left them. *)
Record World := {
  fs : disk;
  clock : nat;
  others : list (disk -> disk);
  remote : Server;
  item : FileGroup;
  recursion_limit : nat;
  trace : list (event * disk * gmap string XResource);
}.

Definition M (A : Type) : Type := World -> result A * World.

Definition ret {A} (a : A) : M A := fun w => (inr a, w).

Definition raise {A} (e : exn) : M A := fun w => (inl e, w).

Definition bind {A B} (m : M A) (k : A -> M B) : M B :=
  fun w => match m w with
           | (inr a, w') => k a w'
           | (inl e, w') => (inl e, w')
           end.

(** [try: m except ...: h] *)
Definition try_except {A} (m : M A) (h : exn -> M A) : M A :=
  fun w => match m w with
           | (inl e, w') => h e w'
           | r => r
           end.

Definition lift {A} (r : result A) : M A := fun w => (r, w).

Notation "'let*' x ':=' m 'in' k" := (bind m (fun x => k))
  (at level 10, x name, m at level 200, k at level 200,
   format "'[v' 'let*'  x  ':='  m  'in' '/' k ']'").
Notation "'let*' ' p ':=' m 'in' k" := (bind m (fun p => k))
  (at level 10, p strict pattern, m at level 200, k at level 200).

Definition get_world : M World := fun w => (inr w, w).

Definition set_fs (d : disk) (w : World) : World :=
  {| fs := d; clock := clock w; others := others w; remote := remote w;
     item := item w; recursion_limit := recursion_limit w; trace := trace w |}.

Definition set_remote (s : Server) (w : World) : World :=
  {| fs := fs w; clock := clock w; others := others w; remote := s;
     item := item w; recursion_limit := recursion_limit w; trace := trace w |}.

Definition set_item (g : FileGroup) (w : World) : World :=
  {| fs := fs w; clock := clock w; others := others w; remote := remote w;
     item := g; recursion_limit := recursion_limit w; trace := trace w |}.

Definition set_resources (r : gmap string XResource) (s : Server) : Server :=
  {| node_uri := node_uri s; resources := r; scans := scans s; files := files s |}.

(** Record an operation, with the state it leaves. *)
Definition log (e : event) (w : World) : World :=
  {| fs := fs w; clock := clock w; others := others w; remote := remote w;
     item := item w; recursion_limit := recursion_limit w;
     trace := trace w ++ [(e, fs w, resources (remote w))] |}.

(** A step that changes the disk and is recorded. *)
Definition write_disk (e : event) (d : disk) : M unit :=
  fun w => (inr tt, log e (set_fs d w)).

(** *** The disk *)

(** [os.path.exists(p)] *)
Definition path_exists (p : string) : M bool :=
  fun w => (inr (match fs w !! p with Some _ => true | None => false end), w).

(** [os.makedirs(p)] with [exist_ok] left false *)
Definition makedirs (p : string) : M unit :=
  fun w => match fs w !! p with
           | Some _ => (inl (OSError EEXIST), w)
           | None => write_disk (Makedirs p) (<[p := Dir (clock w) ∅ None]> (fs w)) w
           end.

(** [os.makedirs(p, exist_ok=True)] *)
Definition makedirs_exist_ok (p : string) : M unit :=
  fun w => match fs w !! p with
           | Some (Dir _ _ _) => (inr tt, w)
           | Some (File _) => (inl (OSError EEXIST), w)
           | None => write_disk (Makedirs p) (<[p := Dir (clock w) ∅ None]> (fs w)) w
           end.

(** [os.mkdir(p)] *)
Definition mkdir (p : string) : M unit :=
  fun w => match fs w !! p with
           | Some _ => (inl (OSError EEXIST), w)
           | None => write_disk (Mkdir p) (<[p := Dir (clock w) ∅ None]> (fs w)) w
           end.

(** [shutil.rmtree(p)] *)
Definition rmtree (p : string) : M unit :=
  fun w => match fs w !! p with
           | None => (inl (OSError ENOENT), w)
           | Some (File _) => (inl (OSError ENOTDIR), w)
           | Some (Dir _ _ _) => write_disk (Rmtree p) (delete p (fs w)) w
           end.

(** [open(p, 'w')]: the file is created, or cut to length zero, at once. *)
Definition open_w (p : string) : M unit :=
  fun w => match fs w !! p with
           | Some (Dir _ _ _) => (inl (OSError EISDIR), w)
           | _ => write_disk (OpenWrite p) (<[p := File Empty]> (fs w)) w
           end.

(** [json.dump(m, f)] on the file opened at [p] *)
Definition json_dump (m : gmap string string) (p : string) : M unit :=
  fun w => write_disk (JsonDump p m) (<[p := File (JsonText m)]> (fs w)) w.

(** [with open(p, 'r') as f: json.load(f)] *)
Definition json_load (p : string) : M (gmap string string) :=
  fun w => match fs w !! p with
           | None => (inl (OSError ENOENT), w)
           | Some (Dir _ _ _) => (inl (OSError EISDIR), w)
           | Some (File (JsonText m)) => (inr m, w)
           | Some (File _) => (inl JSONDecodeError, w)
           end.

(** [open(op.join(d, f), 'wb')] *)
Definition open_wb_in (d f : string) : M unit :=
  fun w => match fs w !! d with
           | None => (inl (OSError ENOENT), w)
           | Some (File _) => (inl (OSError ENOTDIR), w)
           | Some (Dir _ es x) =>
               write_disk (OpenWrite (PyStr.op_join d [f]))
                 (<[d := Dir (clock w) (<[f := Empty]> es) x]> (fs w)) w
           end.

(** Write [c] to the file [f] of the directory [d], opened before. *)
Definition write_in (d f : string) (c : fdata) : M unit :=
  fun w => match fs w !! d with
           | Some (Dir _ es x) =>
               write_disk (Write (PyStr.op_join d [f]))
                 (<[d := Dir (clock w) (<[f := c]> es) x]> (fs w)) w
           | _ => (inl (OSError ENOENT), w)
           end.

(** [with ZipFile(op.join(d, f)) as z: z.extractall(op.join(d, 'expanded'))] *)
Definition extractall (d f : string) : M unit :=
  fun w => match fs w !! d with
           | Some (Dir _ es x) =>
               match es !! f with
               | None => (inl (OSError ENOENT), w)
               | Some (ZipBytes (GoodZip r)) =>
                   write_disk (Extractall (PyStr.op_join d [f]) (PyStr.op_join d ["expanded"]))
                     (<[d := Dir (clock w) es (Some r)]> (fs w)) w
               | Some _ => (inl BadZipfile, w)
               end
           | _ => (inl (OSError ENOENT), w)
           end.

(** [glob(op.join(d, 'expanded') + '/**/files', recursive=True)[0]]: the files
    of the directory found, or [IndexError] on the empty list. *)
Definition glob_files (d : string) : M (gmap string string) :=
  fun w => match fs w !! d with
           | Some (Dir _ _ (Some (Some t))) => (inr t, w)
           | _ => (inl IndexError, w)
           end.

(** [shutil.move(data_path, dst)], where [data_path] is the directory that
    [glob_files d] found.  Onto an existing directory Python moves the source
    inside it; [download_file_group] removes [dst] first, and that case is
    left out of the model. *)
Definition move_data (d dst : string) : M unit :=
  fun w => match fs w !! d, fs w !! dst with
           | Some (Dir _ es (Some (Some t))), None =>
               write_disk (Move (PyStr.op_join d ["expanded"] +:+ "/**/files") dst)
                 (<[dst := Dir (clock w) (Bytes <$> t) None]>
                    (<[d := Dir (clock w) es (Some None)]> (fs w))) w
           | Some (Dir _ _ (Some (Some _))), Some _ => (inl Unmodelled, w)
           | _, _ => (inl (OSError ENOENT), w)
           end.

(** [os.listdir(p)] *)
Definition listdir (p : string) : M (list string) :=
  fun w => match fs w !! p with
           | None => (inl (OSError ENOENT), w)
           | Some (File _) => (inl (OSError ENOTDIR), w)
           | Some (Dir _ es x) =>
               (inr ((map_to_list es).*1 ++ match x with Some _ => ["expanded"] | None => [] end), w)
           end.

(** [shutil.copyfile(src, op.join(d, f))] *)
Definition copyfile (src d f : string) : M unit :=
  fun w => match fs w !! src, fs w !! d with
           | Some (File c), Some (Dir _ es x) =>
               write_disk (CopyFile src (PyStr.op_join d [f]))
                 (<[d := Dir (clock w) (<[f := c]> es) x]> (fs w)) w
           | Some (Dir _ _ _), _ => (inl (OSError EISDIR), w)
           | _, _ => (inl (OSError ENOENT), w)
           end.

(** [shutil.copytree(src, dst)]: it creates [dst] and fails when [dst]
    exists. *)
Definition copytree (src dst : string) : M unit :=
  fun w => match fs w !! dst with
           | Some _ => (inl (OSError EEXIST), w)
           | None =>
               match fs w !! src with
               | Some (Dir _ es x) =>
                   write_disk (CopyTree src dst) (<[dst := Dir (clock w) es x]> (fs w)) w
               | Some (File _) => (inl (OSError ENOTDIR), w)
               | None => (inl (OSError ENOENT), w)
               end
           end.

(** [dir_modtime(p)] of [arcana2.core.utils] (outside these sources): the
    latest modification time in the directory; there is none for a path that
    is not a directory. *)
Definition dir_modtime (p : string) : M nat :=
  fun w => match fs w !! p with
           | Some (Dir t _ _) => (inr t, w)
           | _ => (inl ValueError, w)
           end.

(** [time.sleep(d)]: the clock advances and the other processes do their
    next piece of work on the disk, if they have any left. *)
Definition sleep (d : nat) : M unit :=
  fun w =>
    let act := match others w with [] => (fun x => x) | a :: _ => a end in
    (inr tt,
     log (Sleep d)
       {| fs := act (fs w); clock := clock w + d; others := tail (others w);
          remote := remote w; item := item w;
          recursion_limit := recursion_limit w; trace := trace w |}).

(** *** The server *)

(** [self.login.get_json(u)['ResultSet']['Result']], as (Name, digest) pairs *)
Definition get_json (u : string) : M (list (string * string)) :=
  fun w => match files (remote w) !! u with
           | Some rf => (inr (listing rf), log (GetJson u) w)
           | None => (inl XNATResponseError, log (GetJson u) w)
           end.

(** [download_stream(u, f, format='zip')] into the open file [f] of [d] *)
Definition download_stream (u d f : string) : M unit :=
  fun w => match files (remote w) !! u with
           | Some rf => write_in d f (ZipBytes (archive rf)) (log (DownloadStream u) w)
           | None => (inl XNATResponseError, log (DownloadStream u) w)
           end.

(** [xnode.resources[l]] *)
Definition xnode_resource (l : string) : M XResource :=
  fun w => match resources (remote w) !! l with
           | Some r => (inr r, w)
           | None => (inl KeyError, w)
           end.

(** [xnode.scans[n]] *)
Definition xnode_scan (n : string) : M XScan :=
  fun w => match scans (remote w) !! n with
           | Some s => (inr s, w)
           | None => (inl KeyError, w)
           end.

Definition write_resources (e : event) (r : gmap string XResource) : M unit :=
  fun w => (inr tt, log e (set_remote (set_resources r (remote w)) w)).

(** [xresource.delete()] for the resource found under [l] *)
Definition resource_delete (l : string) : M unit :=
  fun w => write_resources (ResourceDelete l) (delete l (resources (remote w))) w.

(** [self.login.classes.ResourceCatalog(parent=xnode, label=l, format=fmt)] *)
Definition resource_create (l fmt : string) : M unit :=
  fun w => write_resources (ResourceCreate l fmt)
             (<[l := {| label := l; format := fmt; uploaded := [] |}]> (resources (remote w))) w.

(** [xresource.upload(path, f)] for the resource under [l]; the model keeps
    the name the file gets on the server. *)
Definition upload (l f : string) : M unit :=
  fun w => write_resources (Upload l f)
             (alter (fun r => {| label := label r; format := format r;
                                 uploaded := uploaded r ++ [f] |}) l
                    (resources (remote w))) w.

(** *** The file group *)

Definition get_item : M FileGroup := fun w => (inr (item w), w).

(** [file_group.uri = u] *)
Definition assign_uri (u : string) : M unit :=
  fun w =>
    let g := item w in
    (inr tt,
     set_item {| name := name g; name_path := name_path g; uri := Some u;
                 item_id := item_id g; derived := derived g;
                 data_format := data_format g;
                 data_format_name := data_format_name g;
                 data_node := data_node g; local_cache := local_cache g;
                 fname := fname g;
                 aux_file_fnames_and_paths := aux_file_fnames_and_paths g;
                 calculate_checksums := calculate_checksums g;
                 provenance := provenance g |} w).

(** [file_group.id = i] *)
Definition assign_id (i : string) : M unit :=
  fun w =>
    let g := item w in
    (inr tt,
     set_item {| name := name g; name_path := name_path g; uri := uri g;
                 item_id := Some i; derived := derived g;
                 data_format := data_format g;
                 data_format_name := data_format_name g;
                 data_node := data_node g; local_cache := local_cache g;
                 fname := fname g;
                 aux_file_fnames_and_paths := aux_file_fnames_and_paths g;
                 calculate_checksums := calculate_checksums g;
                 provenance := provenance g |} w).

(** [not file_group.uri] *)
Definition uri_unset (u : option string) : bool :=
  match u with
  | None => true
  | Some s => String.eqb s ""
  end.

(** Run the steps of a [for] loop in order. *)
Fixpoint for_each {A} (l : list A) (body : A -> M unit) : M unit :=
  match l with
  | [] => ret tt
  | x :: l' => let* _ := body x in for_each l' body
  end.

(** ** Python dictionaries built from a list of pairs *)

(** [{k: v for k, v in l}]: a later pair replaces an earlier one. *)
Definition dict_of (l : list (string * string)) : gmap string string :=
  fold_left (fun m kv => <[kv.1 := kv.2]> m) l ∅.

(** The keys of that dictionary, in the order of first insertion. *)
Definition dict_keys (l : list (string * string)) : list string :=
  fold_left (fun ks kv => if bool_decide (kv.1 ∈ ks) then ks else ks ++ [kv.1]) l [].

(** [l[1:-1]] *)
Definition slice_1_m1 {A} (l : list A) : list A := removelast (tail l).

(** [l[-1]] *)
Definition last_item {A} (l : list A) : result A :=
  match last l with
  | Some x => inr x
  | None => inl IndexError
  end.

(** All the steps of a list of fallible computations, in order. *)
Fixpoint collect {A B} (f : A -> result B) (l : list A) : result (list B) :=
  match l with
  | [] => inr []
  | x :: l' =>
      match f x with
      | inl e => inl e
      | inr y => match collect f l' with
                 | inl e => inl e
                 | inr ys => inr (y :: ys)
                 end
      end
  end.

(** ** The methods of [Xnat] *)

Section Methods.

(** Two attributes of the members of [Clinical] that [escape_name] uses
    and that are declared outside these sources: the layers of a frequency
    ([frequency.hierarchy]) and the text of a member in an f-string. *)
Variable hierarchy : Clinical.t -> list Clinical.t.
Variable clinical_str : Clinical.t -> string.

(** [Xnat.cache_path], for an item with the given [uri], or for the string
    [uri] itself. *)
Definition cache_path (self : Xnat) (uri : option string) : result string :=
  match uri with
  | None => inl ArcanaError
  | Some u => inr (PyStr.op_join (cache_dir self) (drop 3 (PyStr.split "/" u)))
  end.

(** [Xnat._check_repository] *)
Definition _check_repository (self : Xnat) : M unit :=
  let* g := get_item in
  if Nat.eqb (repository (data_node g)) (ident self) then ret tt
  else raise ArcanaWrongRepositoryError.

(** [Xnat.escape_name] *)
Definition escape_name (g : FileGroup) : result string :=
  let name := PyStr.join "__" (name_path g) in
  let f := frequency (data_node g) in
  if bool_decide (f = Clinical.subject) || bool_decide (f = Clinical.session)
  then inr name
  else
    match collect (fun l => match ids (data_node g) !! l with
                            | Some i => inr (clinical_str l +:+ "__" +:+ i)
                            | None => inl KeyError
                            end) (hierarchy f) with
    | inl e => inl e
    | inr parts => inr ("___" +:+ PyStr.join "___" parts +:+ "___")
    end.

(** One turn of the loop of [unescape_name].  The statement
    [freq_value != layer_freq] is a comparison whose value is dropped:
    [freq_value] stays as it was. *)
Definition unescape_part (acc : result (gmap Clinical.t string * Z)) (part : string)
  : result (gmap Clinical.t string * Z) :=
  match acc with
  | inl e => inl e
  | inr (ids, freq_value) =>
      match PyStr.split "__" part with
      | [layer_freq_str; i] =>
          match Clinical.of_name layer_freq_str with
          | inl e => inl e
          | inr layer_freq => inr (<[layer_freq := i]> ids, freq_value)
          end
      | _ => inl ValueError
      end
  end.

(** [Xnat.unescape_name] *)
Definition unescape_name (xname : string)
  : result (string * Clinical.t * gmap Clinical.t string) :=
  let id_parts := slice_1_m1 (PyStr.split "___" xname) in
  match fold_left unescape_part id_parts (inr (∅, 0%Z)) with
  | inl e => inl e
  | inr (ids, freq_value) =>
      match Clinical.of_value freq_value with
      | inl e => inl e
      | inr frequency =>
          match last_item id_parts with
          | inl e => inl e
          | inr p => inr (PyStr.join "/" (PyStr.split "__" p), frequency, ids)
          end
      end
  end.

(** [Xnat.get_checksums] *)
Definition get_checksums (self : Xnat) : M (gmap string string) :=
  let* g := get_item in
  match uri g with
  | None => raise ArcanaUsageError
  | Some u =>
      let* res := get_json (u +:+ "/files") in
      let checksums := dict_of res in
      match data_format g with
      | None => raise AttributeError
      | Some fmt =>
          if directory fmt then ret checksums
          else
            let* '(primary, _) := lift (assort_files fmt (dict_keys res)) in
            match checksums !! primary with
            | None => raise KeyError
            | Some d => ret (<["." := d]> (delete primary checksums))
            end
      end
  end.

(** Modelled from the spec: the property [file_group.checksums] of
    [FileGroup], which is declared outside these sources.  The spec has the
    coordinator fetch the remote manifest of the item and compare the local
    one with it, which is what [get_checksums] returns. *)
Definition file_group_checksums (self : Xnat) : M (gmap string string) :=
  get_checksums self.

(** [with open(cache_path + self.MD5_SUFFIX, 'w', **JSON_ENCODING) as f:
    json.dump(checksums, f, indent=2)], the two lines with which both
    [download_file_group] and [put_file_group] write the manifest. *)
Definition write_manifest (cache_path : string) (checksums : gmap string string) : M unit :=
  let* _ := open_w (cache_path +:+ MD5_SUFFIX) in
  json_dump checksums (cache_path +:+ MD5_SUFFIX).

(** [Xnat.download_file_group]; [xresource_uri] is [xresource.uri]. *)
Definition download_file_group (self : Xnat) (tmp_dir xresource_uri cache_path : string)
  : M unit :=
  let* _ := open_wb_in tmp_dir "download.zip" in
  let* _ := download_stream (xresource_uri +:+ "/files") tmp_dir "download.zip" in
  let* checksums := get_checksums self in
  let* _ := try_except (extractall tmp_dir "download.zip")
              (fun e => if bool_decide (e = BadZipfile) then raise ArcanaError else raise e) in
  let* _ := glob_files tmp_dir in
  let* _ := try_except (rmtree cache_path)
              (fun e => if bool_decide (e = OSError ENOENT) then ret tt else raise e) in
  let* _ := move_data tmp_dir cache_path in
  write_manifest cache_path checksums.

(** [Xnat._delayed_download].  [depth] is the number of calls the
    interpreter still allows; the method calls itself while the download
    directory keeps changing. *)
Fixpoint _delayed_download (depth : nat) (self : Xnat)
    (tmp_dir xresource_uri cache_path : string) (delay : nat) : M unit :=
  match depth with
  | O => raise RecursionError
  | S depth' =>
      let* initial_mod_time := dir_modtime tmp_dir in
      let* _ := sleep delay in
      let* done := path_exists cache_path in
      if done then ret tt
      else
        let* mod_time := dir_modtime tmp_dir in
        if negb (Nat.eqb initial_mod_time mod_time)
        then _delayed_download depth' self tmp_dir xresource_uri cache_path delay
        else
          let* _ := rmtree tmp_dir in
          let* _ := mkdir tmp_dir in
          download_file_group self tmp_dir xresource_uri cache_path
  end.

(** [try: m / except: h / else: k]: the handler covers [m] only. *)
Definition try_except_else {A B} (m : M A) (h : exn -> M B) (k : A -> M B) : M B :=
  fun w => match m w with
           | (inl e, w') => h e w'
           | (inr a, w') => k a w'
           end.

(** Lines 153-169 of [get_file_group_paths]: the URI of an item that has
    none yet, from the node and the resource of the item. *)
Definition resolve_uri (self : Xnat) : M unit :=
  let* g := get_item in
  if uri_unset (uri g) then
    let* w := get_world in
    let base_uri := node_uri (remote w) in
    if derived g then
      let* n := lift (escape_name g) in
      let* xresource := xnode_resource n in
      assign_uri (base_uri +:+ "/resources/" +:+ label xresource)
    else
      let* xscan := xnode_scan (name g) in
      let* _ := assign_id (xscan_id xscan) in
      let base_uri := base_uri +:+ "/scans/" +:+ xscan_id xscan in
      match xscan_resources xscan !! data_format_name g with
      | None => raise KeyError
      | Some xresource =>
          assign_uri (base_uri +:+ "/resources/" +:+ label xresource)
      end
  else ret tt.

(** Lines 171-183 of [get_file_group_paths]: the value of
    [need_to_download]. *)
Definition need_to_download (self : Xnat) (cache_path : string) : M bool :=
  let* cached := path_exists cache_path in
  if cached then
    if check_md5 self then
      try_except_else (json_load (cache_path +:+ MD5_SUFFIX))
        (fun e => if is_IOError e then ret true else raise e)
        (fun cached_checksums =>
           let* checksums := file_group_checksums self in
           ret (negb (bool_decide (cached_checksums = checksums))))
    else ret false
  else ret true.

(** Lines 184-216 of [get_file_group_paths], the branch taken when
    [need_to_download] is true; [xresource_uri] is the URI of the item. *)
Definition download_to_cache (self : Xnat) (cache_path xresource_uri : string) : M unit :=
  let tmp_dir := cache_path +:+ ".download" in
  try_except_else (makedirs tmp_dir)
    (fun e =>
       if bool_decide (e = OSError EEXIST) then
         match _race_cond_delay self with
         | None => raise AttributeError
         | Some delay =>
             let* w := get_world in
             _delayed_download (recursion_limit w) self tmp_dir
               xresource_uri cache_path delay
         end
       else raise e)
    (fun _ =>
       let* _ := download_file_group self tmp_dir xresource_uri cache_path in
       rmtree tmp_dir).

(** Lines 217-223 of [get_file_group_paths]: the paths returned. *)
Definition cached_paths (fmt : FileFormat) (cache_path : string)
  : M (string * option (list (string * string))) :=
  if negb (directory fmt) then
    let* names := listdir cache_path in
    let* '(primary_path, side_cars) :=
      lift (assort_files fmt (map (fun f => PyStr.op_join cache_path [f]) names)) in
    ret (primary_path, Some side_cars)
  else ret (cache_path, None).

(** [Xnat.get_file_group_paths] *)
Definition get_file_group_paths (self : Xnat)
  : M (string * option (list (string * string))) :=
  let* g := get_item in
  match data_format g with
  | None => raise ArcanaUsageError
  | Some fmt =>
      let* _ := _check_repository self in
      let* _ := resolve_uri self in
      let* g := get_item in
      let* cache_path := lift (cache_path self (uri g)) in
      let* need := need_to_download self cache_path in
      let* _ := if need
                then download_to_cache self cache_path (default "" (uri g))
                else ret tt in
      cached_paths fmt cache_path
  end.

(** [Xnat.put_provenance], for a file group whose provenance record has
    the text [prov]. *)
Definition put_provenance (self : Xnat) (prov : string) : M unit :=
  let* w := get_world in
  match PROV_RESOURCE self with
  | None => raise AttributeError
  | Some prov_resource =>
      let uri := node_uri (remote w) +:+ "/resources/" +:+ prov_resource in
      let* cache_dir := lift (cache_path self (Some uri)) in
      let* _ := makedirs_exist_ok cache_dir in
      let* g := get_item in
      let* n := lift (escape_name g) in
      let fname := n +:+ ".json" in
      let* _ := write_in cache_dir fname (Bytes prov) in
      let* _ := try_except_else (xnode_resource prov_resource)
                  (fun e => if bool_decide (e = KeyError)
                            then resource_create prov_resource "PROVENANCE"
                            else raise e)
                  (fun _ => ret tt) in
      upload prov_resource fname
  end.

(** The names that [os.walk(p)] yields for the files of [p]; nothing when
    [p] is not a directory. *)
Definition walk_files (p : string) : M (list string) :=
  fun w => match fs w !! p with
           | Some (Dir _ es _) => (inr (map_to_list es).*1, w)
           | _ => (inr [], w)
           end.

(** Lines 270-274 of [put_file_group]: the URI the method works with, the
    one the item has or the one made from the node and the escaped name. *)
Definition uri_for_put (g : FileGroup) (s : Server) : result string :=
  if uri_unset (uri g) then
    match escape_name g with
    | inl e => inl e
    | inr n => inr (node_uri s +:+ "/resources/" +:+ n)
    end
  else
    match uri g with
    | Some u => inr u
    | None => inl ArcanaError
    end.

(** Lines 267-293 of [put_file_group]: the URI of the item, the copy of its
    files into the cache, the manifest and the provenance.  The variable
    [name] of the method is bound only when the item had no URI; the result
    is its binding. *)
Definition put_in_cache (self : Xnat) (fmt : FileFormat) : M (option string) :=
  let* g := get_item in
  let* bound_name :=
    if uri_unset (uri g) then
      let* w := get_world in
      let* n := lift (escape_name g) in
      let* _ := assign_uri (node_uri (remote w) +:+ "/resources/" +:+ n) in
      ret (Some n)
    else ret None in
  let* g := get_item in
  let* cache_path := lift (cache_path self (uri g)) in
  let* cached := path_exists cache_path in
  let* _ := if cached then rmtree cache_path else ret tt in
  let* _ := makedirs cache_path in
  let* _ :=
    if directory fmt then copytree (local_cache g) cache_path
    else
      let* _ := copyfile (local_cache g) cache_path (fname g) in
      for_each (aux_file_fnames_and_paths g)
        (fun sc => copyfile sc.2 cache_path sc.1) in
  let* _ := write_manifest cache_path (calculate_checksums g) in
  let* _ := match provenance g with
            | Some prov => put_provenance self prov
            | None => ret tt
            end in
  ret bound_name.

(** Lines 294-317 of [put_file_group]: the resource [n] of the node is
    deleted if it exists, created, and the files are uploaded to it. *)
Definition replace_resource (fmt : FileFormat) (n : string) : M unit :=
  let* g := get_item in
  let* _ := try_except_else (xnode_resource n)
              (fun e => if bool_decide (e = KeyError) then ret tt else raise e)
              (fun _ => resource_delete n) in
  let* _ := resource_create n (data_format_name g) in
  if directory fmt then
    let* fnames := walk_files (local_cache g) in
    for_each fnames (fun f => upload n f)
  else
    let* _ := upload n (fname g) in
    for_each (aux_file_fnames_and_paths g) (fun sc => upload n sc.1).

(** [Xnat.put_file_group] *)
Definition put_file_group (self : Xnat) : M unit :=
  let* g := get_item in
  match data_format g with
  | None => raise ArcanaFileFormatError
  | Some fmt =>
      let* _ := _check_repository self in
      let* bound_name := put_in_cache self fmt in
      match bound_name with
      | None => raise UnboundLocalError
      | Some n => replace_resource fmt n
      end
  end.

End Methods.

(** The cache path of an item whose URI is [u]: the value of
    [cache_path self (Some u)]. *)
Definition cache_of (self : Xnat) (u : string) : string :=
  PyStr.op_join (cache_dir self) (drop 3 (PyStr.split "/" u)).

(** The manifest and the download directory of the cache path [p]. *)
Definition manifest_of (p : string) : string := p +:+ MD5_SUFFIX.

Definition marker_of (p : string) : string := p +:+ ".download".

(** ** Traces *)

(** The operations recorded in a state, oldest first. *)
Definition events (w : World) : list event := (trace w).*1.*1.

(** [e] fetches the files of a resource. *)
Definition is_transfer (e : event) : bool :=
  match e with DownloadStream _ => true | _ => false end.

(** [e] renames something onto [p]. *)
Definition renames_onto (p : string) (e : event) : bool :=
  match e with Move _ dst => String.eqb dst p | _ => false end.

(** [e] opens [p] itself for writing. *)
Definition opens_for_write (p : string) (e : event) : bool :=
  match e with OpenWrite q => String.eqb q p | _ => false end.

(** The file [p] is written by renaming another file onto it, and is never
    opened for writing under its own name. *)
Definition written_by_rename (p : string) (es : list event) : bool :=
  existsb (renames_onto p) es && negb (existsb (opens_for_write p) es).

(** What a reader finds at [p] right after each operation of the trace that
    opens [p] for writing. *)
Definition seen_after_open (p : string)
    (tr : list (event * disk * gmap string XResource)) : list (option node) :=
  map (fun x => x.1.2 !! p) (List.filter (fun x => opens_for_write p x.1.1) tr).

(** [e] creates the resource [n] of the node. *)
Definition creates (n : string) (e : event) : bool :=
  match e with ResourceCreate l _ => String.eqb l n | _ => false end.

(** Every run of [m] from a state whose server satisfies [J] leaves a server
    that satisfies [J], and adds to the trace only operations that satisfy
    [P]. *)
Definition runs {A} (J : Server -> Prop) (P : event -> Prop) (m : M A) : Prop :=
  forall w r w', J (remote w) -> m w = (r, w') ->
    J (remote w') /\
    exists es, trace w' = trace w ++ es /\ Forall (fun x => P x.1.1) es.

(** The run from [w] to [w'] writes the file [p] in place: it opens [p]
    itself for writing, which leaves [p] empty on the disk, and then dumps
    the JSON text into it; no operation of the run renames a file onto
    [p]. *)
Definition in_place_write (p : string) (w w' : World) : Prop :=
  exists cs pre post d1 rs1 d2 rs2,
    trace w' = trace w ++ (pre ++ [(OpenWrite p, d1, rs1); (JsonDump p cs, d2, rs2)]) ++ post /\
    d1 !! p = Some (File Empty) /\
    d2 !! p = Some (File (JsonText cs)) /\
    Forall (fun x => renames_onto p x.1.1 = false) (pre ++ post).

(** [e] deletes or creates the resource [n] of the node. *)
Definition replaces (n : string) (e : event) : bool :=
  match e with
  | ResourceDelete l | ResourceCreate l _ => String.eqb l n
  | _ => false
  end.


(** ** A concrete repository, item and server

    The objects on which the closed statements below are evaluated: a
    repository cached under [/cache], the NIFTI resource of a scan of one
    session, and a server that holds one file for it. *)

Module Fixture.

Definition repo : Xnat :=
  {| ident := 1; server := "https://xnat.example.org"; cache_dir := "/cache";
     check_md5 := true; race_condition_delay := 30;
     _race_cond_delay := Some 30; PROV_RESOURCE := None |}.

(** A format whose primary file is the first name given, the others being
    its side cars. *)
Definition nifti : FileFormat :=
  {| directory := false;
     assort_files := fun names =>
       match names with
       | [] => inl ArcanaFileFormatError
       | p :: aux => inr (p, map (fun a => (a, a)) aux)
       end |}.

Definition session_node : DataNode :=
  {| frequency := Clinical.session;
     ids := {[ Clinical.subject := "S01"; Clinical.session := "S01_MR1" ]};
     repository := 1 |}.

Definition session_uri : string :=
  "/data/archive/projects/P/subjects/S01/experiments/S01_MR1".

Definition scan_uri : string := session_uri +:+ "/scans/1/resources/NIFTI".

(** The item, with its URI set, as after a first lookup. *)
Definition scan : FileGroup :=
  {| name := "t1w"; name_path := ["t1w"]; uri := Some scan_uri;
     item_id := Some "1"; derived := false; data_format := Some nifti;
     data_format_name := "NIFTI"; data_node := session_node;
     local_cache := "/work/t1w.nii"; fname := "t1w.nii";
     aux_file_fnames_and_paths := [];
     calculate_checksums := {[ "." := "abc123" ]};
     provenance := None |}.

(** A derivative of the same session that has not been stored yet. *)
Definition derivative : FileGroup :=
  {| name := "brain"; name_path := ["brain"]; uri := None;
     item_id := None; derived := true; data_format := Some nifti;
     data_format_name := "NIFTI"; data_node := session_node;
     local_cache := "/work/brain.nii"; fname := "brain.nii";
     aux_file_fnames_and_paths := [("brain.json", "/work/brain.json")];
     calculate_checksums := {[ "." := "d41d"; "brain.json" := "9e10" ]};
     provenance := None |}.

(** An item kept once per group, for the group [G1]. *)
Definition group_item : FileGroup :=
  {| name := "template"; name_path := ["template"]; uri := None;
     item_id := None; derived := true; data_format := Some nifti;
     data_format_name := "NIFTI";
     data_node := {| frequency := Clinical.group;
                     ids := {[ Clinical.group := "G1" ]}; repository := 1 |};
     local_cache := "/work/template.nii"; fname := "template.nii";
     aux_file_fnames_and_paths := [];
     calculate_checksums := {[ "." := "77aa" ]};
     provenance := None |}.

(** The server, delivering the archive [z] for the scan; the node already
    has a resource [brain]. *)
Definition xnat_server (z : zipfile) : Server :=
  {| node_uri := session_uri;
     resources := {[ "brain" := {| label := "brain"; format := "NIFTI";
                                   uploaded := ["old.nii"] |} ]};
     scans := ∅;
     files := {[ scan_uri +:+ "/files" :=
                   {| listing := [("t1w.nii", "abc123")]; archive := z |} ]} |}.

(** The same server when the scan has a side car beside its primary file. *)
Definition with_side_car (s : Server) : Server :=
  {| node_uri := node_uri s; resources := resources s; scans := scans s;
     files := {[ scan_uri +:+ "/files" :=
                   {| listing := [("t1w.nii", "abc123"); ("t1w.json", "77f0")];
                      archive := BadZip |} ]} |}.

Definition good_zip : zipfile := GoodZip (Some {[ "t1w.nii" := "NIFTI-DATA" ]}).

Definition cache : string := "/cache/projects/P/subjects/S01/experiments/S01_MR1/scans/1/resources/NIFTI".

(** A world with the disk [d], the archive [z] on the server and no other
    process at work. *)
Definition world (g : FileGroup) (z : zipfile) (d : disk) : World :=
  {| fs := d; clock := 100; others := []; remote := xnat_server z; item := g;
     recursion_limit := 1000; trace := [] |}.

(** [frequency.hierarchy] and the text of a member, for the evaluation of
    closed statements. *)
Definition layers (f : Clinical.t) : list Clinical.t :=
  filter (fun l => Clinical.is_parent l f = true \/ l = f)
    [Clinical.member; Clinical.group; Clinical.timepoint].

Definition member_name (f : Clinical.t) : string :=
  match f with
  | Clinical.dataset => "dataset" | Clinical.member => "member"
  | Clinical.group => "group" | Clinical.timepoint => "timepoint"
  | Clinical.subject => "subject" | Clinical.matchedpoint => "matchedpoint"
  | Clinical.batch => "batch" | Clinical.session => "session"
  end.

(** The scan in the cache, with a manifest that is not JSON. *)
Definition broken_manifest : disk :=
  {[ cache := Dir 7 {[ "t1w.nii" := Bytes "NIFTI-DATA" ]} None;
     cache +:+ ".md5.json" := File (Bytes "{") ]}.

(** The scan in the cache, without a manifest, and a download directory
    beside it. *)
Definition unfinished : disk :=
  {[ cache := Dir 7 {[ "t1w.nii" := Bytes "NIFTI-DATA" ]} None;
     cache +:+ ".download" := Dir 7 {[ "download.zip" := ZipBytes good_zip ]} (Some None) ]}.

(** The local files of the derivative. *)
Definition workdir : disk :=
  {[ "/work/brain.nii" := File (Bytes "BRAIN");
     "/work/brain.json" := File (Bytes "SIDECAR") ]}.

(** The cache path of the derivative. *)
Definition derivative_cache : string :=
  "/cache/projects/P/subjects/S01/experiments/S01_MR1/resources/brain".

(** A download directory left behind at time 5, empty. *)
Definition stale_marker : disk := {[ cache +:+ ".download" := Dir 5 ∅ None ]}.

End Fixture.

(** ** Other methods of [Xnat] *)

(** [Xnat.dataset_cache_dir] *)
Definition dataset_cache_dir (self : Xnat) (dataset_name : string) : string :=
  PyStr.op_join (cache_dir self) [dataset_name].

(** [l[2:-2]] *)
Definition slice_2_m2 {A} (l : list A) : list A :=
  removelast (removelast (drop 2 l)).

(** Line 415 of [populate_items]: the URI kept for the resource [r] of a
    scan, ['/'.join(r.uri.split('/')[:-1] + [r.label])]. *)
Definition label_uri (r_uri r_label : string) : string :=
  PyStr.join "/" (removelast (PyStr.split "/" r_uri) ++ [r_label]).

(** Line 566 of [dicom_header]:
    [scan_uri = '/' + '/'.join(file_group.uri.split('/')[2:-2])]; an item
    without URI has [None] there, which has no [split]. *)
Definition dicom_scan_uri (g : FileGroup) : result string :=
  match uri g with
  | None => inl AttributeError
  | Some u => inr ("/" +:+ PyStr.join "/" (slice_2_m2 (PyStr.split "/" u)))
  end.

(** Lines 792-797 of [make_command_json]:
    [analysis_name, version = image_name.split('/')[1].split(':')], where an
    [IndexError] or a [ValueError] becomes an [ArcanaUsageError]. *)
Definition image_name_parts (image_name : string) : result (string * string) :=
  match PyStr.split "/" image_name !! 1 with
  | None => inl ArcanaUsageError
  | Some s =>
      match PyStr.split ":" s with
      | [analysis_name; version] => inr (analysis_name, version)
      | _ => inl ArcanaUsageError
      end
  end.

(** A string without the character [d]. *)
Fixpoint char_free (d : ascii) (s : string) : bool :=
  match s with
  | EmptyString => true
  | String c s' => negb (Ascii.eqb c d) && char_free d s'
  end.

(** Every run of [m] leaves the item as it was, and the URI of its node on
    the server. *)
Definition keeps_item {A} (m : M A) : Prop :=
  forall w r w', m w = (r, w') ->
    item w' = item w /\ node_uri (remote w') = node_uri (remote w).

(** The other processes are still downloading into [tmp_dir]: each piece of
    their work changes the modification time of the directory and does not
    make [cache_path]. *)
Definition still_downloading (tmp_dir cache_path : string)
    (acts : list (disk -> disk)) : Prop :=
  Forall (fun act : disk -> disk =>
            forall d t es x,
              d !! tmp_dir = Some (Dir t es x) -> d !! cache_path = None ->
              act d !! cache_path = None /\
              exists t' es' x', act d !! tmp_dir = Some (Dir t' es' x') /\ t' <> t)
         acts.

(** ** More objects for the closed statements *)

Module Sample.




(** The scan of [Fixture], as an item of another repository. *)
Definition foreign : FileGroup :=
  {| name := "t1w"; name_path := ["t1w"]; uri := Some Fixture.scan_uri;
     item_id := Some "1"; derived := false; data_format := Some Fixture.nifti;
     data_format_name := "NIFTI";
     data_node := {| frequency := Clinical.session;
                     ids := {[ Clinical.subject := "S01"; Clinical.session := "S01_MR1" ]};
                     repository := 2 |};
     local_cache := "/work/t1w.nii"; fname := "t1w.nii";
     aux_file_fnames_and_paths := [];
     calculate_checksums := {[ "." := "abc123" ]};
     provenance := None |}.


Definition recording : Xnat :=
  {| ident := 1; server := "https://xnat.example.org"; cache_dir := "/cache";
     check_md5 := true; race_condition_delay := 30;
     _race_cond_delay := Some 30; PROV_RESOURCE := Some "PROVENANCE" |}.


(** A piece of work of another process on the directory [p]: its
    modification time moves on. *)
Definition touch (p : string) (d : disk) : disk :=
  match d !! p with
  | Some (Dir t es x) => <[p := Dir (S t) es x]> d
  | _ => d
  end.

(** A world in which another process writes twice more into the download
    directory of the scan. *)
Definition busy : World :=
  {| fs := Fixture.stale_marker; clock := 100;
     others := [touch (Fixture.cache +:+ ".download");
                touch (Fixture.cache +:+ ".download")];
     remote := Fixture.xnat_server Fixture.good_zip; item := Fixture.scan;
     recursion_limit := 2; trace := [] |}.

End Sample.

(** * Properties *)

(** ** Strings and paths *)

Section PathFacts.

Import PyStr.

Lemma append_cons (x : ascii) (a b : string) :
  String x a +:+ b = String x (a +:+ b).
Proof. reflexivity. Qed.

Lemma append_nil_l (a : string) : "" +:+ a = a.
Proof. reflexivity. Qed.

Lemma append_assoc (a b c : string) : (a +:+ b) +:+ c = a +:+ (b +:+ c).
Proof.
  induction a as [|x a IH]; [reflexivity|].
  rewrite !append_cons. f_equal. exact IH.
Qed.

Lemma append_nil_r (a : string) : a +:+ "" = a.
Proof.
  induction a as [|x a IH]; [reflexivity|].
  rewrite append_cons. f_equal. exact IH.
Qed.

Lemma append_length (a b : string) :
  String.length (a +:+ b) = String.length a + String.length b.
Proof.
  induction a as [|x a IH]; [reflexivity|].
  rewrite append_cons. simpl. f_equal. exact IH.
Qed.

Lemma append_cancel_nil (a b : string) : a = a +:+ b -> b = "".
Proof.
  intros H. apply (f_equal String.length) in H. rewrite append_length in H.
  destruct b; [reflexivity | simpl in H; lia].
Qed.

Lemma split_from_slash (c : ascii) (cur s : string) :
  split_from "/" 0 cur (String c s) =
  if Ascii.eqb c "/" then cur :: split_from "/" 0 "" s
  else split_from "/" 0 (cur +:+ String c "") s.
Proof.
  change (split_from "/" 0 cur (String c s))
    with (if String.prefix "/" (String c s)
          then cur :: split_from "/" 0 "" s
          else split_from "/" 0 (cur +:+ String c "") s).
  change (String.prefix "/" (String c s))
    with (if Ascii.ascii_dec "/" c then String.prefix "" s else false).
  destruct (Ascii.ascii_dec "/" c) as [<-|Hne].
  - destruct s; reflexivity.
  - destruct (Ascii.eqb_spec c "/") as [->|_]; [congruence | reflexivity].
Qed.

Lemma split_from_cons (cur s : string) :
  exists x r, split_from "/" 0 cur s = x :: r.
Proof.
  revert cur. induction s as [|c s IH]; intros cur.
  - simpl. eauto.
  - rewrite split_from_slash. destruct (Ascii.eqb c "/"); eauto.
Qed.

Lemma join_cons (sep x y : string) (r : list string) :
  join sep (x :: y :: r) = x +:+ sep +:+ join sep (y :: r).
Proof. reflexivity. Qed.

(** Joining the pieces with the separator gives the string back. *)
Lemma join_split_from (cur s : string) :
  join "/" (split_from "/" 0 cur s) = cur +:+ s.
Proof.
  revert cur. induction s as [|c s IH]; intros cur.
  - simpl. now rewrite append_nil_r.
  - rewrite split_from_slash. destruct (Ascii.eqb_spec c "/") as [->|Hc].
    + destruct (split_from_cons "" s) as (x & r & Hxr).
      rewrite Hxr, join_cons, <- Hxr, IH. reflexivity.
    + rewrite IH, append_assoc. reflexivity.
Qed.

Lemma join_split (s : string) : join "/" (split "/" s) = s.
Proof. apply join_split_from. Qed.

Lemma split_inj (s1 s2 : string) : split "/" s1 = split "/" s2 -> s1 = s2.
Proof. intros H. rewrite <- (join_split s1), <- (join_split s2). now rewrite H. Qed.

Lemma slash_free_app (a b : string) :
  slash_free (a +:+ b) = slash_free a && slash_free b.
Proof.
  induction a as [|x a IH]; simpl; [reflexivity|].
  rewrite IH. now rewrite andb_assoc.
Qed.

(** No piece of a split contains the separator. *)
Lemma split_from_slash_free (cur s : string) :
  slash_free cur = true ->
  Forall (fun x => slash_free x = true) (split_from "/" 0 cur s).
Proof.
  revert cur. induction s as [|c s IH]; intros cur Hcur.
  - simpl. constructor; [assumption | constructor].
  - rewrite split_from_slash. destruct (Ascii.eqb c "/") eqn:Hc.
    + constructor; [assumption | now apply IH].
    + apply IH. rewrite slash_free_app, Hcur. simpl. now rewrite Hc.
Qed.

Lemma split_slash_free (s : string) :
  Forall (fun x => slash_free x = true) (split "/" s).
Proof. now apply split_from_slash_free. Qed.


Lemma segment_cons (b : string) :
  segment b -> exists c b', b = String c b' /\ c <> "/"%char /\ slash_free b' = true.
Proof.
  intros [Hne Hsf]. destruct b as [|c b']; [congruence|].
  simpl in Hsf. apply andb_prop in Hsf as [Hc Hb'].
  exists c, b'. repeat split; [|assumption].
  intros ->. discriminate Hc.
Qed.

Lemma startswith_sep_segment (b : string) : segment b -> startswith_sep b = false.
Proof.
  intros Hb. destruct (segment_cons b Hb) as (c & b' & -> & Hc & _).
  unfold startswith_sep.
  change (String.prefix "/" (String c b'))
    with (if Ascii.ascii_dec "/" c then String.prefix "" b' else false).
  destruct (Ascii.ascii_dec "/" c); [congruence | reflexivity].
Qed.

Lemma join_step_segment (path b : string) :
  segment b -> join_step path b = path +:+ sep_after path +:+ b.
Proof.
  intros Hb. unfold join_step, sep_after.
  rewrite (startswith_sep_segment b Hb).
  destruct (String.eqb path "" || endswith_sep path); reflexivity.
Qed.

Lemma last_char_app (a b : string) : b <> "" -> last_char (a +:+ b) = last_char b.
Proof.
  intros Hb. induction a as [|x a IH]; [reflexivity|].
  rewrite append_cons. simpl. rewrite IH.
  destruct (a +:+ b) eqn:E; [|reflexivity].
  destruct a; [rewrite append_nil_l in E; congruence | discriminate E].
Qed.

Lemma last_char_slash_free (b : string) :
  slash_free b = true -> last_char b <> Some "/"%char.
Proof.
  induction b as [|c b IH]; [discriminate|].
  simpl. intros H. apply andb_prop in H as [Hc Hb].
  destruct b as [|d b].
  - intros [= ->]. discriminate Hc.
  - now apply IH.
Qed.

Lemma endswith_sep_segment (a b : string) : segment b -> endswith_sep (a +:+ b) = false.
Proof.
  intros [Hne Hsf]. unfold endswith_sep. rewrite last_char_app by assumption.
  pose proof (last_char_slash_free b Hsf) as H.
  destruct (last_char b) as [c|]; [|reflexivity].
  destruct (Ascii.eqb_spec c "/") as [->|]; [congruence | reflexivity].
Qed.

Lemma app_segment_nonempty (a b : string) : segment b -> a +:+ b <> "".
Proof.
  intros [Hne _] H. apply (f_equal String.length) in H.
  rewrite append_length in H. destruct b; [congruence | simpl in H; lia].
Qed.

(** After a first segment, the others are appended, each after a ['/']. *)
Lemma fold_join_step (r : list string) (p : string) :
  p <> "" -> endswith_sep p = false -> Forall segment r ->
  fold_left join_step r p = p +:+ slashed r.
Proof.
  revert p. induction r as [|b r IH]; intros p Hp He Hr.
  - simpl. now rewrite append_nil_r.
  - apply Forall_cons in Hr as [Hb Hr]. simpl fold_left.
    rewrite (join_step_segment p b Hb). unfold sep_after.
    rewrite He. replace (String.eqb p "") with false
      by (symmetry; now apply String.eqb_neq).
    simpl orb. cbv iota. rewrite IH.
    + simpl slashed. now rewrite !append_assoc.
    + rewrite <- append_assoc. now apply app_segment_nonempty.
    + rewrite <- append_assoc. now apply endswith_sep_segment.
    + assumption.
Qed.

Lemma op_join_cons (a x : string) (r : list string) :
  Forall segment (x :: r) ->
  op_join a (x :: r) = a +:+ sep_after a +:+ x +:+ slashed r.
Proof.
  intros H. apply Forall_cons in H as [Hx Hr].
  unfold op_join. simpl fold_left. rewrite (join_step_segment a x Hx).
  rewrite fold_join_step.
  - now rewrite !append_assoc.
  - rewrite <- append_assoc. now apply app_segment_nonempty.
  - rewrite <- append_assoc. now apply endswith_sep_segment.
  - assumption.
Qed.

(** Two strings without ['/'], each followed by nothing or by a ['/']:
    where they end can be read off the whole. *)
Lemma slash_free_app_inj (x y a b : string) :
  slash_free x = true -> slash_free y = true ->
  (a = "" \/ exists a', a = String "/" a') ->
  (b = "" \/ exists b', b = String "/" b') ->
  x +:+ a = y +:+ b -> x = y /\ a = b.
Proof.
  revert y. induction x as [|c x IH]; intros y Hx Hy Ha Hb E.
  - rewrite append_nil_l in E. destruct y as [|d y].
    + now rewrite append_nil_l in E.
    + rewrite append_cons in E. simpl in Hy. apply andb_prop in Hy as [Hd _].
      destruct Ha as [->|[a' ->]]; [discriminate E|].
      injection E as <- _. discriminate Hd.
  - rewrite append_cons in E. simpl in Hx. apply andb_prop in Hx as [Hc Hx].
    destruct y as [|d y].
    + rewrite append_nil_l in E.
      destruct Hb as [->|[b' ->]]; [discriminate E|].
      injection E as -> _. discriminate Hc.
    + rewrite append_cons in E. injection E as <- E.
      simpl in Hy. apply andb_prop in Hy as [_ Hy].
      destruct (IH y Hx Hy Ha Hb E) as [-> ->]. now split.
Qed.

Lemma slashed_headed (r : list string) :
  slashed r = "" \/ exists a', slashed r = String "/" a'.
Proof. destruct r as [|b r]; [now left | right; simpl; eauto]. Qed.

Lemma slashed_inj (r1 r2 : list string) (x1 x2 : string) :
  Forall segment r1 -> Forall segment r2 ->
  slash_free x1 = true -> slash_free x2 = true ->
  x1 +:+ slashed r1 = x2 +:+ slashed r2 -> x1 = x2 /\ r1 = r2.
Proof.
  revert r2 x1 x2. induction r1 as [|b1 r1 IH]; intros r2 x1 x2 H1 H2 Hx1 Hx2 E.
  - destruct (slash_free_app_inj _ _ _ _ Hx1 Hx2 (slashed_headed [])
                (slashed_headed r2) E) as [-> E'].
    split; [reflexivity|]. destruct r2; [reflexivity | discriminate E'].
  - destruct (slash_free_app_inj _ _ _ _ Hx1 Hx2 (slashed_headed (b1 :: r1))
                (slashed_headed r2) E) as [-> E'].
    split; [reflexivity|]. destruct r2 as [|b2 r2]; [discriminate E'|].
    simpl in E'. injection E' as E'.
    apply Forall_cons in H1 as [[_ Hb1] H1]. apply Forall_cons in H2 as [[_ Hb2] H2].
    destruct (IH r2 b1 b2 H1 H2 Hb1 Hb2 E') as [-> ->]. reflexivity.
Qed.

(** [os.path.join] onto one directory is injective on lists of segments. *)
Lemma op_join_inj (a : string) (l1 l2 : list string) :
  Forall segment l1 -> Forall segment l2 ->
  op_join a l1 = op_join a l2 -> l1 = l2.
Proof.
  intros H1 H2 E. destruct l1 as [|x1 r1], l2 as [|x2 r2].
  - reflexivity.
  - rewrite (op_join_cons a x2 r2 H2) in E. unfold op_join in E. simpl in E.
    apply append_cancel_nil in E. apply Forall_cons in H2 as [Hx2 _].
    exfalso. rewrite <- append_assoc in E.
    destruct Hx2 as [Hne _]. apply (f_equal String.length) in E.
    rewrite !append_length in E. destruct x2; [congruence | simpl in E; lia].
  - rewrite (op_join_cons a x1 r1 H1) in E. unfold op_join in E. simpl in E.
    symmetry in E. apply append_cancel_nil in E. apply Forall_cons in H1 as [Hx1 _].
    exfalso. rewrite <- append_assoc in E.
    destruct Hx1 as [Hne _]. apply (f_equal String.length) in E.
    rewrite !append_length in E. destruct x1; [congruence | simpl in E; lia].
  - rewrite (op_join_cons a x1 r1 H1), (op_join_cons a x2 r2 H2) in E.
    apply String.app_inj in E. apply String.app_inj in E.
    apply Forall_cons in H1 as [[_ Hx1] H1]. apply Forall_cons in H2 as [[_ Hx2] H2].
    destruct (slashed_inj r1 r2 x1 x2 H1 H2 Hx1 Hx2 E) as [-> ->]. reflexivity.
Qed.

End PathFacts.

(** ** The layout of the cache *)

(** C7, as amended.  [cache_path] is a function of the repository's
    [cache_dir] and of the URI alone (it takes no state and does no I/O), and
    it drops the first three segments of the URI whatever they are.  It is
    injective on the URIs that agree on these three segments and have no
    empty segment after them: two distinct such URIs get distinct cache
    paths. *)
Theorem cache_path_injective_under_root (self : Xnat) (u1 u2 : string) :
  take 3 (PyStr.split "/" u1) = take 3 (PyStr.split "/" u2) ->
  Forall (fun s => s <> "") (drop 3 (PyStr.split "/" u1)) ->
  Forall (fun s => s <> "") (drop 3 (PyStr.split "/" u2)) ->
  u1 <> u2 ->
  cache_path self (Some u1) <> cache_path self (Some u2).
Proof.
  intros Hroot H1 H2 Hne E. apply Hne. apply split_inj.
  rewrite <- (take_drop 3 (PyStr.split "/" u1)), <- (take_drop 3 (PyStr.split "/" u2)).
  rewrite Hroot. f_equal.
  simpl in E. injection E as E.
  assert (Hseg : forall u, Forall (fun s => s <> "") (drop 3 (PyStr.split "/" u)) ->
                           Forall PyStr.segment (drop 3 (PyStr.split "/" u))).
  { intros u Hu. pose proof (Forall_drop _ 3 _ (split_slash_free u)) as Hsf.
    revert Hu Hsf. generalize (drop 3 (PyStr.split "/" u)).
    induction 1; intros Hsf; [constructor|].
    apply Forall_cons in Hsf as [? ?]. constructor; [now split | auto]. }
  apply (op_join_inj (cache_dir self)); auto.
Qed.

(** The theorem at two resources of one session. *)
Lemma cache_path_injective_under_root_witness :
  cache_path Fixture.repo (Some (Fixture.session_uri +:+ "/scans/1/resources/NIFTI")) <>
  cache_path Fixture.repo (Some (Fixture.session_uri +:+ "/scans/2/resources/NIFTI")).
Proof.
  apply cache_path_injective_under_root.
  - vm_compute. reflexivity.
  - vm_compute. repeat constructor; discriminate.
  - vm_compute. repeat constructor; discriminate.
  - vm_compute. discriminate.
Defined.

(** C7 as stated fails: two distinct URIs with the same cache path, once with
    different leading segments and once with an empty segment. *)
Lemma cache_path_collision :
  "/data/archive/projects/P/resources/R" <> "/REST/v1/projects/P/resources/R" /\
  cache_path Fixture.repo (Some "/data/archive/projects/P/resources/R") =
  cache_path Fixture.repo (Some "/REST/v1/projects/P/resources/R") /\
  "/data/archive/projects/P/resources/R" <> "/data/archive/projects/P//resources/R" /\
  cache_path Fixture.repo (Some "/data/archive/projects/P/resources/R") =
  cache_path Fixture.repo (Some "/data/archive/projects/P//resources/R").
Proof.
  split; [discriminate|]. split; [vm_compute; reflexivity|].
  split; [discriminate|]. vm_compute; reflexivity.
Qed.

(** ** Escaping of item names *)

(** [unescape_name] never builds a frequency: [freq_value] is compared, not
    updated, so whatever it returns carries [Clinical(0)]. *)
Lemma unescape_part_freq (parts : list string) (acc : result (gmap Clinical.t string * Z))
    (ids : gmap Clinical.t string) (v : Z) :
  fold_left unescape_part parts acc = inr (ids, v) ->
  exists ids0, acc = inr (ids0, v).
Proof.
  revert acc. induction parts as [|p parts IH]; intros acc H.
  - simpl in H. eauto.
  - simpl in H. apply IH in H as [ids1 H].
    destruct acc as [e|[ids0 v0]]; [discriminate H|].
    unfold unescape_part in H.
    destruct (PyStr.split "__" p) as [|a [|b [|c l]]]; try discriminate H.
    destruct (Clinical.of_name a); [discriminate H|].
    injection H as _ ->. eauto.
Qed.

Lemma unescape_name_frequency (xname name_path : string) (f : Clinical.t)
    (ids : gmap Clinical.t string) :
  unescape_name xname = inr (name_path, f, ids) -> f = Clinical.dataset.
Proof.
  unfold unescape_name. intros H.
  destruct (fold_left unescape_part _ _) as [e|[ids1 v]] eqn:E; [discriminate H|].
  apply unescape_part_freq in E as [ids0 E]. injection E as _ <-.
  simpl in H. destruct (last_item _); [discriminate H|]. now injection H as _ <- _.
Qed.

(** C10: [unescape_name] does not invert [escape_name].  The escaped name of
    the scan of a session is its name, [t1w], and [unescape_name] raises
    [IndexError] on it ([id_parts] is empty).  For an item of the group
    frequency with the group [G1] (taking, as the fixture does, the group as
    the only layer of that frequency and the name of a member as its text),
    the escaped name is [___group__G1___] whatever the name of the item, and
    from it [unescape_name] returns the name path [group/G1] and the
    frequency [dataset]. *)
Theorem unescape_name_not_inverse :
  escape_name Fixture.layers Fixture.member_name Fixture.scan = inr "t1w" /\
  unescape_name "t1w" = inl IndexError /\
  escape_name Fixture.layers Fixture.member_name Fixture.group_item = inr "___group__G1___" /\
  unescape_name "___group__G1___" =
    inr ("group/G1", Clinical.dataset, {[ Clinical.group := "G1" ]}).
Proof. repeat split; vm_compute; reflexivity. Qed.

(** ** The checksum manifest of the server *)

(** C9.  For a file group whose format is not a directory, whose files the
    server lists and whose primary file [primary] is among them with the
    digest [d], [get_checksums] returns a manifest that has [d] under the
    key ["."], has no entry under the name of the primary file, and has every
    other file under its own name with its own digest. *)
Theorem get_checksums_primary_key (self : Xnat) (w : World) (u : string)
    (fmt : FileFormat) (rf : RemoteFiles) (primary d : string)
    (aux : list (string * string)) :
  uri (item w) = Some u ->
  data_format (item w) = Some fmt ->
  directory fmt = false ->
  files (remote w) !! (u +:+ "/files") = Some rf ->
  assort_files fmt (dict_keys (listing rf)) = inr (primary, aux) ->
  dict_of (listing rf) !! primary = Some d ->
  exists (m : gmap string string) (w' : World),
    get_checksums self w = (inr m, w') /\
    m !! "." = Some d /\
    (primary <> "." -> m !! primary = None) /\
    (forall k, k <> "." -> k <> primary -> m !! k = dict_of (listing rf) !! k).
Proof.
  intros Hu Hf Hd Hrf Ha Hp.
  exists (<["." := d]> (delete primary (dict_of (listing rf)))), (log (GetJson (u +:+ "/files")) w).
  split.
  - unfold get_checksums, bind, get_item, get_json, lift.
    rewrite Hu, Hrf. cbn. rewrite Hf, Hd, Ha. cbn. rewrite Hp. reflexivity.
  - split; [apply lookup_insert_eq|]. split.
    + intros Hne. rewrite lookup_insert_ne by congruence. apply lookup_delete_eq.
    + intros k Hk1 Hk2. rewrite lookup_insert_ne by congruence.
      apply lookup_delete_ne. congruence.
Qed.

(** The theorem on the scan of the fixture when the server lists the
    primary file and a side car. *)
Lemma get_checksums_primary_key_witness :
  let w := set_remote (Fixture.with_side_car (Fixture.xnat_server BadZip))
             (Fixture.world Fixture.scan BadZip ∅) in
  exists (m : gmap string string) (w' : World),
    get_checksums Fixture.repo w = (inr m, w') /\
    m !! "." = Some "abc123" /\
    ("t1w.nii" <> "." -> m !! "t1w.nii" = None) /\
    (forall k, k <> "." -> k <> "t1w.nii" ->
               m !! k = dict_of [("t1w.nii", "abc123"); ("t1w.json", "77f0")] !! k).
Proof.
  apply (get_checksums_primary_key Fixture.repo
           (set_remote (Fixture.with_side_car (Fixture.xnat_server BadZip))
              (Fixture.world Fixture.scan BadZip ∅))
           Fixture.scan_uri Fixture.nifti
           {| listing := [("t1w.nii", "abc123"); ("t1w.json", "77f0")]; archive := BadZip |}
           "t1w.nii" "abc123" [("t1w.json", "t1w.json")]); vm_compute; reflexivity.
Defined.

(** ** Running the methods *)

Lemma bind_inr {A B} (m : M A) (k : A -> M B) (w w' : World) (b : B) :
  bind m k w = (inr b, w') ->
  exists a w1, m w = (inr a, w1) /\ k a w1 = (inr b, w').
Proof.
  unfold bind. destruct (m w) as [[e|a] w1]; [discriminate | eauto].
Qed.

Lemma bind_cases {A B} (m : M A) (k : A -> M B) (w w' : World) (r : result B) :
  bind m k w = (r, w') ->
  (exists e, m w = (inl e, w') /\ r = inl e) \/
  (exists a w1, m w = (inr a, w1) /\ k a w1 = (r, w')).
Proof.
  unfold bind. destruct (m w) as [[e|a] w1]; intros H.
  - left. injection H as <- <-. eauto.
  - right. eauto.
Qed.

(** The cache path, the manifest beside it and the download directory
    beside it are three different paths. *)
Lemma path_ne_suffix (p s : string) : s <> "" -> p <> p +:+ s.
Proof. intros Hs H. now apply append_cancel_nil in H. Qed.

Lemma suffix_ne (p s1 s2 : string) : s1 <> s2 -> p +:+ s1 <> p +:+ s2.
Proof. intros Hs H. now apply String.app_inj in H. Qed.

Lemma cache_ne_tmp (p : string) : p <> p +:+ ".download".
Proof. now apply path_ne_suffix. Qed.

Lemma cache_ne_md5 (p : string) : p <> p +:+ MD5_SUFFIX.
Proof. now apply path_ne_suffix. Qed.

Lemma tmp_ne_md5 (p : string) : p +:+ ".download" <> p +:+ MD5_SUFFIX.
Proof. now apply suffix_ne. Qed.

Ltac paths_ne :=
  unfold marker_of, manifest_of;
  solve [ apply cache_ne_tmp | apply cache_ne_md5 | apply tmp_ne_md5
        | symmetry; apply cache_ne_tmp | symmetry; apply cache_ne_md5
        | symmetry; apply tmp_ne_md5 ].

Ltac lookup_paths :=
  repeat first [ rewrite lookup_insert_eq | rewrite lookup_delete_eq
               | rewrite lookup_insert_ne by paths_ne
               | rewrite lookup_delete_ne by paths_ne ].

Ltac lookup_paths_in H :=
  repeat first [ rewrite lookup_insert_eq in H | rewrite lookup_delete_eq in H
               | rewrite lookup_insert_ne in H by paths_ne
               | rewrite lookup_delete_ne in H by paths_ne ].


(** [get_checksums] asks the server at most once and changes nothing
    else. *)
Lemma get_checksums_world (self : Xnat) (w w' : World) (r : result (gmap string string)) :
  get_checksums self w = (r, w') ->
  w' = w \/ exists u, w' = log (GetJson u) w.
Proof.
  unfold get_checksums, bind, get_item. destruct (uri (item w)) as [u|].
  - unfold get_json. destruct (files (remote w) !! (u +:+ "/files")) as [rf|].
    + destruct (data_format (item w)) as [fmt|]; cbn.
      * destruct (directory fmt); cbn.
        -- intros [= <- <-]. eauto.
        -- unfold lift. destruct (assort_files fmt _) as [e|[p a]]; cbn.
           ++ intros [= <- <-]. eauto.
           ++ destruct (dict_of (listing rf) !! p); cbn; intros [= <- <-]; eauto.
      * intros [= <- <-]. eauto.
    + intros [= <- <-]. eauto.
  - cbn. intros [= <- <-]. eauto.
Qed.

(** What [get_checksums] returns depends on the item and the server only. *)
Lemma get_checksums_ext (self : Xnat) (w1 w2 : World) :
  item w1 = item w2 -> remote w1 = remote w2 ->
  (get_checksums self w1).1 = (get_checksums self w2).1.
Proof.
  intros Hi Hr. unfold get_checksums, bind, get_item. rewrite Hi.
  destruct (uri (item w2)) as [u|]; [|reflexivity].
  unfold get_json. rewrite Hr.
  destruct (files (remote w2) !! (u +:+ "/files")) as [rf|]; [|reflexivity].
  destruct (data_format (item w2)) as [fmt|]; [|reflexivity]. cbn.
  destruct (directory fmt); [reflexivity|]. unfold lift.
  destruct (assort_files fmt _) as [e|[p a]]; [reflexivity|]. cbn.
  destruct (dict_of (listing rf) !! p); reflexivity.
Qed.

(** ** Resolving an item: [get_file_group_paths] *)

Section Download.

Variable hierarchy : Clinical.t -> list Clinical.t.
Variable clinical_str : Clinical.t -> string.

(** For an item of this repository with a format and a URI, the method is
    the check of the cache, the download when it is needed, and the listing
    of the cache path. *)
Lemma get_file_group_paths_with_uri (self : Xnat) (w : World) (u : string)
    (fmt : FileFormat) :
  data_format (item w) = Some fmt ->
  repository (data_node (item w)) = ident self ->
  uri (item w) = Some u -> u <> "" ->
  get_file_group_paths hierarchy clinical_str self w =
  (let* need := need_to_download self (cache_of self u) in
   let* _ := if need then download_to_cache self (cache_of self u) u else ret tt in
   cached_paths fmt (cache_of self u)) w.
Proof.
  intros Hf Hr Hu Hne.
  unfold get_file_group_paths, bind at 1, get_item at 1. rewrite Hf.
  unfold bind at 1, _check_repository, bind at 1, get_item at 1.
  rewrite Hr, Nat.eqb_refl. unfold ret at 1.
  unfold bind at 1, resolve_uri, bind at 1, get_item at 1. rewrite Hu.
  unfold uri_unset. apply String.eqb_neq in Hne. rewrite Hne. unfold ret at 1.
  unfold bind at 1, get_item at 1. rewrite Hu.
  unfold bind at 1, lift, cache_path. reflexivity.
Qed.

(** C4, as amended.  With [check_md5] on and the cache path present, a
    manifest file that exists but does not hold JSON makes
    [get_file_group_paths] raise the decoding error of [json.load]: nothing
    is downloaded and the state is left as it was.  When the manifest file
    is missing, which is the [IOError] that the code catches,
    [need_to_download] is true and the state is left as it was. *)
Theorem unparsable_manifest_is_fatal (self : Xnat) (w : World) (u : string)
    (fmt : FileFormat) (n : node) :
  data_format (item w) = Some fmt ->
  repository (data_node (item w)) = ident self ->
  uri (item w) = Some u -> u <> "" ->
  check_md5 self = true ->
  fs w !! cache_of self u = Some n ->
  (forall d, fs w !! manifest_of (cache_of self u) = Some (File d) ->
             (forall m, d <> JsonText m) ->
             get_file_group_paths hierarchy clinical_str self w = (inl JSONDecodeError, w)) /\
  (fs w !! manifest_of (cache_of self u) = None ->
   need_to_download self (cache_of self u) w = (inr true, w)).
Proof.
  intros Hf Hr Hu Hne Hc Hcp. split.
  - intros d Hmd Hd.
    rewrite (get_file_group_paths_with_uri self w u fmt Hf Hr Hu Hne).
    unfold bind at 1, need_to_download, bind at 1, path_exists.
    rewrite Hcp, Hc. unfold try_except_else, json_load.
    unfold manifest_of in Hmd. rewrite Hmd.
    destruct d; try reflexivity. exfalso. now apply (Hd m).
  - intros Hmd. unfold need_to_download, bind at 1, path_exists.
    rewrite Hcp, Hc. unfold try_except_else, json_load.
    unfold manifest_of in Hmd. rewrite Hmd. reflexivity.
Qed.

(** C6, as amended.  A process that waits in [_delayed_download] adopts the
    result of the other process, returning without a download, as soon as
    the cache path exists after the delay: it looks at the path alone, the
    manifest is neither read nor compared, so the statement has no
    hypothesis on it. *)
Theorem delayed_download_adopts_existing_path (self : Xnat) (depth delay : nat)
    (u cp : string) (w : World) (t : nat) (es : gmap string fdata)
    (x : option (option (gmap string string))) :
  fs w !! marker_of cp = Some (Dir t es x) ->
  is_Some (fs (sleep delay w).2 !! cp) ->
  _delayed_download (S depth) self (marker_of cp) u cp delay w
  = (inr tt, (sleep delay w).2) /\
  events (sleep delay w).2 = events w ++ [Sleep delay].
Proof.
  intros Hm [n Hn]. split.
  - cbn [_delayed_download]. unfold bind at 1, dir_modtime at 1. rewrite Hm.
    unfold bind at 1. destruct (sleep delay w) as [r w1] eqn:Es.
    unfold sleep in Es. injection Es as <- <-.
    unfold bind at 1, path_exists at 1. cbn [snd] in Hn. rewrite Hn. reflexivity.
  - unfold events, sleep, log. cbn. rewrite !fmap_app. reflexivity.
Qed.

(** A download that meets a corrupt archive: what [download_file_group]
    leaves in a fresh download directory. *)
Lemma download_file_group_corrupt (self : Xnat) (w : World) (u cp : string)
    (rf : RemoteFiles) (t : nat) :
  fs w !! marker_of cp = Some (Dir t ∅ None) ->
  files (remote w) !! (u +:+ "/files") = Some rf ->
  archive rf = BadZip ->
  exists e w',
    download_file_group self (marker_of cp) u cp w = (inl e, w') /\
    fs w' = <[marker_of cp := Dir (clock w) {[ "download.zip" := ZipBytes BadZip ]} None]> (fs w).
Proof.
  intros Hm Hrf Hz.
  unfold download_file_group.
  unfold bind at 1, open_wb_in at 1. rewrite Hm. unfold write_disk at 1.
  unfold bind at 1, download_stream at 1. cbn [remote log set_fs]. rewrite Hrf.
  unfold write_in at 1. cbn [fs log set_fs]. rewrite lookup_insert_eq.
  unfold write_disk at 1. rewrite Hz.
  match goal with |- context [bind (get_checksums self) _ ?w3] => set (w3' := w3) end.
  assert (Hfs3 : fs w3' = <[marker_of cp := Dir (clock w) {[ "download.zip" := ZipBytes BadZip ]} None]> (fs w)).
  { subst w3'. cbn [fs log set_fs clock]. rewrite insert_insert_eq.
    try (f_equal; f_equal; apply insert_insert_eq). }
  unfold bind at 1. destruct (get_checksums self w3') as [[e|cs] w4] eqn:Ecs.
  - exists e, w4. split; [reflexivity|].
    apply get_checksums_world in Ecs as [->|[u' ->]]; exact Hfs3.
  - assert (Hfs4 : fs w4 = fs w3') by (apply get_checksums_world in Ecs as [->|[u' ->]]; reflexivity).
    exists ArcanaError, w4. split; [|congruence].
    unfold bind at 1, try_except, extractall. rewrite Hfs4, Hfs3, lookup_insert_eq.
    rewrite lookup_singleton_eq. reflexivity.
Qed.

(** C1, as amended.  An item that is neither cached nor being downloaded,
    and whose archive is corrupt on arrival: [get_file_group_paths] raises,
    and it leaves the cache path absent and the manifest file as it was, but
    the download directory stays behind with the archive in it.  A later
    call does not start from the absent state: its [os.makedirs] fails on
    the directory with [EEXIST]. *)
Theorem corrupt_archive_leaves_marker (self : Xnat) (w : World) (u : string)
    (fmt : FileFormat) (rf : RemoteFiles) :
  data_format (item w) = Some fmt ->
  repository (data_node (item w)) = ident self ->
  uri (item w) = Some u -> u <> "" ->
  fs w !! cache_of self u = None ->
  fs w !! marker_of (cache_of self u) = None ->
  files (remote w) !! (u +:+ "/files") = Some rf ->
  archive rf = BadZip ->
  exists e w',
    get_file_group_paths hierarchy clinical_str self w = (inl e, w') /\
    fs w' !! marker_of (cache_of self u)
      = Some (Dir (clock w) {[ "download.zip" := ZipBytes BadZip ]} None) /\
    fs w' !! cache_of self u = None /\
    fs w' !! manifest_of (cache_of self u) = fs w !! manifest_of (cache_of self u) /\
    makedirs (marker_of (cache_of self u)) w' = (inl (OSError EEXIST), w').
Proof.
  intros Hf Hr Hu Hne Hcp Hm Hrf Hz. set (cp := cache_of self u) in *.
  rewrite (get_file_group_paths_with_uri self w u fmt Hf Hr Hu Hne). fold cp.
  unfold bind at 1, need_to_download, bind at 1, path_exists. rewrite Hcp.
  unfold ret at 1. unfold bind at 1, download_to_cache, try_except_else.
  fold (marker_of cp). unfold makedirs at 1. rewrite Hm. unfold write_disk.
  set (w1 := log _ _).
  destruct (download_file_group_corrupt self w1 u cp rf (clock w)) as (e & w' & Hd & Hfs).
  { subst w1. cbn [fs log set_fs]. apply lookup_insert_eq. }
  { exact Hrf. }
  { exact Hz. }
  exists e, w'. unfold bind at 1. rewrite Hd.
  assert (Hfs' : fs w' = <[marker_of cp := Dir (clock w)
                             {[ "download.zip" := ZipBytes BadZip ]} None]> (fs w)).
  { rewrite Hfs. subst w1. cbn [fs log set_fs clock]. apply insert_insert_eq. }
  split; [reflexivity|]. rewrite Hfs'.
  split; [apply lookup_insert_eq|].
  split; [rewrite lookup_insert_ne by paths_ne; exact Hcp|].
  split; [apply lookup_insert_ne, tmp_ne_md5|].
  unfold makedirs. rewrite Hfs', lookup_insert_eq. reflexivity.
Qed.

(** The three paths of an item after the data and the manifest have been put
    in place over a disk [d0]. *)
Lemma installed_lookup (d d0 : disk) (cp : string) (cs : gmap string string) (n m : node) :
  (forall p, p <> cp -> d0 !! p = d !! p) ->
  let d' := <[manifest_of cp := File (JsonText cs)]>
              (<[cp := n]> (<[marker_of cp := m]> d0)) in
  d' !! manifest_of cp = Some (File (JsonText cs)) /\
  is_Some (d' !! cp) /\
  is_Some (d' !! marker_of cp) /\
  (forall p, p <> cp -> p <> manifest_of cp -> p <> marker_of cp -> d' !! p = d !! p).
Proof.
  intros Hd0 d'. subst d'. split; [apply lookup_insert_eq|]. split.
  - rewrite lookup_insert_ne by paths_ne.
    rewrite lookup_insert_eq. eauto.
  - split.
    + rewrite lookup_insert_ne by paths_ne.
      rewrite lookup_insert_ne by paths_ne.
      rewrite lookup_insert_eq. eauto.
    + intros p H1 H2 H3. rewrite !lookup_insert_ne by congruence. now apply Hd0.
Qed.

(** What a successful [download_file_group] leaves: the cache path, the
    manifest with the checksums of the server, and the download directory;
    the other paths, the item, the server and the other processes are as
    before. *)
Lemma download_file_group_ok (self : Xnat) (w w' : World) (u cp : string) :
  download_file_group self (marker_of cp) u cp w = (inr tt, w') ->
  exists cs,
    (get_checksums self w).1 = inr cs /\
    (fs w' !! manifest_of cp = Some (File (JsonText cs)) /\
     is_Some (fs w' !! cp) /\
     is_Some (fs w' !! marker_of cp) /\
     (forall p, p <> cp -> p <> manifest_of cp -> p <> marker_of cp ->
                fs w' !! p = fs w !! p)) /\
    item w' = item w /\ remote w' = remote w /\ others w' = others w /\
    recursion_limit w' = recursion_limit w.
Proof.
  unfold download_file_group. intros H.
  unfold bind at 1, open_wb_in at 1 in H.
  destruct (fs w !! marker_of cp) as [[?|t es x]|] eqn:Hm; try discriminate H.
  unfold write_disk at 1 in H.
  unfold bind at 1, download_stream at 1 in H. cbn [remote log set_fs] in H.
  destruct (files (remote w) !! (u +:+ "/files")) as [rf|] eqn:Hrf; [|discriminate H].
  unfold write_in at 1 in H. cbn [fs log set_fs] in H. rewrite lookup_insert_eq in H.
  unfold write_disk at 1 in H. cbn [fs log set_fs clock] in H.
  rewrite !insert_insert_eq in H.
  match type of H with context [bind (get_checksums self) _ ?w3] => set (w3' := w3) in H end.
  unfold bind at 1 in H.
  destruct (get_checksums self w3') as [[e|cs] w4] eqn:Ecs; [discriminate H|].
  assert (Hcs : (get_checksums self w).1 = inr cs).
  { rewrite (get_checksums_ext self w w3') by reflexivity. now rewrite Ecs. }
  assert (H4 : fs w4 = fs w3' /\ item w4 = item w /\ remote w4 = remote w /\
               others w4 = others w /\ recursion_limit w4 = recursion_limit w /\
               clock w4 = clock w).
  { apply get_checksums_world in Ecs as [->|[u' ->]]; repeat split; reflexivity. }
  destruct H4 as (Hfs4 & Hi4 & Hr4 & Ho4 & Hl4 & Hc4). subst w3'. cbn [fs log set_fs] in Hfs4.
  clear Ecs.
  unfold bind at 1, try_except at 1, extractall at 1 in H.
  rewrite Hfs4, lookup_insert_eq, lookup_insert_eq in H.
  destruct (archive rf) as [|r]; [discriminate H|].
  unfold write_disk at 1 in H. rewrite insert_insert_eq, Hc4 in H.
  unfold bind at 1, glob_files at 1 in H. cbn [fs log set_fs] in H.
  rewrite lookup_insert_eq in H. destruct r as [data|]; [|discriminate H].
  unfold bind at 1, try_except at 1, rmtree at 1 in H. cbn [fs log set_fs] in H.
  rewrite lookup_insert_ne in H by paths_ne.
  exists cs. split; [exact Hcs|].
  unfold bind at 1, move_data at 1 in H.
  assert (Hfin : forall (d : disk) (w0 : World) (e1 e2 : event),
             d !! cp = None ->
             is_Some (d !! marker_of cp) ->
             d !! manifest_of cp = fs w !! manifest_of cp ->
             (forall p, p <> cp -> p <> manifest_of cp -> p <> marker_of cp ->
                        d !! p = fs w !! p) ->
             item w0 = item w -> remote w0 = remote w -> others w0 = others w ->
             recursion_limit w0 = recursion_limit w ->
             forall n,
             write_manifest cp cs
               (log e1 (set_fs (<[cp := n]> d) w0)) = (inr tt, w') ->
             (fs w' !! manifest_of cp = Some (File (JsonText cs)) /\
              is_Some (fs w' !! cp) /\
              is_Some (fs w' !! marker_of cp) /\
              (forall p, p <> cp -> p <> manifest_of cp -> p <> marker_of cp ->
                         fs w' !! p = fs w !! p)) /\
             item w' = item w /\ remote w' = remote w /\ others w' = others w /\
             recursion_limit w' = recursion_limit w).
  { clear. intros d w0 e1 e2 Hc Hmk Hmd Hoth Hi Hr Ho Hl n H.
    unfold write_manifest, bind at 1, open_w at 1 in H. cbn [fs log set_fs] in H.
    fold (manifest_of cp) in H.
    rewrite lookup_insert_ne in H by paths_ne.
    assert (H' : (let* _ := ret tt in json_dump cs (manifest_of cp))
                   (log (OpenWrite (manifest_of cp))
                      (set_fs (<[manifest_of cp := File Empty]> (<[cp := n]> d))
                         (log e1 (set_fs (<[cp := n]> d) w0)))) = (inr tt, w')).
    { destruct (d !! manifest_of cp) as [[?|? ? ?]|]; try discriminate H; exact H. }
    clear H. unfold bind, ret, json_dump, write_disk in H'.
    injection H' as <-. cbn [fs log set_fs item remote others recursion_limit].
    rewrite insert_insert_eq.
    split; [|repeat split; assumption].
    split; [apply lookup_insert_eq|].
    split; [rewrite lookup_insert_ne by paths_ne; rewrite lookup_insert_eq; eauto|].
    split; [rewrite !lookup_insert_ne by paths_ne; exact Hmk|].
    intros p H1 H2 H3. rewrite !lookup_insert_ne by congruence. now apply Hoth. }
  destruct (fs w !! cp) as [[?|t0 es0 x0]|] eqn:Hcp; [discriminate H| |].
  - unfold write_disk at 1 in H. cbn [fs log set_fs clock] in H.
    lookup_paths_in H.
    unfold write_disk at 1 in H. cbn [fs log set_fs clock] in H.
    eapply (Hfin _ _ _ (Rmtree cp)); [ .. | exact H]; cbn [item remote others recursion_limit log set_fs]; try assumption.
    + lookup_paths. reflexivity.
    + lookup_paths. eauto.
    + lookup_paths. reflexivity.
    + intros p H1 H2 H3. rewrite !lookup_insert_ne by congruence.
      rewrite lookup_delete_ne by congruence. apply lookup_insert_ne. congruence.
  - rewrite bool_decide_eq_true_2 in H by reflexivity.
    unfold ret at 1 in H. cbv beta iota in H. cbn [fs log set_fs clock] in H.
    lookup_paths_in H. rewrite ?Hcp in H.
    unfold write_disk at 1 in H. cbn [fs log set_fs clock] in H.
    eapply (Hfin _ _ _ (Rmtree cp)); [ .. | exact H]; cbn [item remote others recursion_limit log set_fs]; try assumption.
    + lookup_paths. exact Hcp.
    + lookup_paths. eauto.
    + lookup_paths. reflexivity.
    + intros p H1 H2 H3. rewrite !lookup_insert_ne by congruence. reflexivity.
Qed.

(** Listing the cache path changes nothing. *)
Lemma cached_paths_world (fmt : FileFormat) (cp : string) (w w' : World)
    (r : result (string * option (list (string * string)))) :
  cached_paths fmt cp w = (r, w') -> w' = w.
Proof.
  unfold cached_paths, bind, listdir, lift, ret.
  destruct (negb (directory fmt)); [|now intros [= _ <-]].
  destruct (fs w !! cp) as [[?|? es x]|]; try now intros [= _ <-].
  destruct (assort_files fmt _) as [e|[p a]]; now intros [= _ <-].
Qed.

(** The download after a stale download directory has been found: the
    directory is removed, made again, and is still there when
    [_delayed_download] returns. *)
Lemma delayed_download_restart (self : Xnat) (depth delay : nat) (u cp : string)
    (w w' : World) :
  is_Some (fs w !! marker_of cp) ->
  fs w !! cp = None ->
  others w = [] ->
  _delayed_download depth self (marker_of cp) u cp delay w = (inr tt, w') ->
  exists w0,
    download_file_group self (marker_of cp) u cp w0 = (inr tt, w') /\
    fs w0 = <[marker_of cp := Dir (clock w + delay) ∅ None]> (fs w) /\
    item w0 = item w /\ remote w0 = remote w /\ others w0 = [] /\
    recursion_limit w0 = recursion_limit w.
Proof.
  intros [n Hm] Hcp Ho H. destruct depth as [|depth]; [discriminate H|].
  cbn [_delayed_download] in H.
  unfold bind at 1, dir_modtime at 1 in H. rewrite Hm in H.
  destruct n as [?|t es x]; [discriminate H|].
  unfold bind at 1, sleep at 1 in H. rewrite Ho in H. cbn [tail] in H.
  unfold bind at 1, path_exists at 1 in H. cbn [fs log] in H. rewrite Hcp in H.
  unfold bind at 1, dir_modtime at 1 in H. cbn [fs log] in H. rewrite Hm in H.
  rewrite Nat.eqb_refl in H. cbn [negb] in H.
  unfold bind at 1, rmtree at 1 in H. cbn [fs log] in H. rewrite Hm in H.
  unfold write_disk at 1 in H.
  unfold bind at 1, mkdir at 1 in H. cbn [fs log set_fs] in H.
  rewrite lookup_delete_eq in H. unfold write_disk at 1 in H.
  cbn [fs log set_fs clock] in H. rewrite insert_delete_eq in H.
  eexists. split; [exact H|]. cbn [fs log set_fs item remote others recursion_limit].
  repeat split; reflexivity.
Qed.

(** C2: what the code does with a stale download directory.  When the
    directory exists, the cache path does not and no other process is at
    work, a call of [get_file_group_paths] that returns has removed the
    directory, made it again and downloaded the item, and it returns with
    the download directory still on the disk: the removal that follows
    [download_file_group] on the ordinary path is missing after
    [_delayed_download]. *)
Theorem stale_marker_left_after_download (self : Xnat) (w w' : World) (u : string)
    (fmt : FileFormat) (r : string * option (list (string * string))) :
  data_format (item w) = Some fmt ->
  repository (data_node (item w)) = ident self ->
  uri (item w) = Some u -> u <> "" ->
  is_Some (fs w !! marker_of (cache_of self u)) ->
  fs w !! cache_of self u = None ->
  others w = [] ->
  get_file_group_paths hierarchy clinical_str self w = (inr r, w') ->
  is_Some (fs w' !! cache_of self u) /\
  is_Some (fs w' !! marker_of (cache_of self u)).
Proof.
  intros Hf Hr Hu Hne Hm Hcp Ho H. set (cp := cache_of self u) in *.
  rewrite (get_file_group_paths_with_uri self w u fmt Hf Hr Hu Hne) in H. fold cp in H.
  unfold bind at 1, need_to_download, bind at 1, path_exists in H. rewrite Hcp in H.
  unfold ret at 1 in H.
  apply bind_inr in H as ([] & w2 & Hd & Hc).
  apply cached_paths_world in Hc as ->.
  unfold download_to_cache, try_except_else in Hd. fold (marker_of cp) in Hd.
  unfold makedirs at 1 in Hd. destruct Hm as [n Hm]. rewrite Hm in Hd.
  rewrite bool_decide_eq_true_2 in Hd by reflexivity.
  destruct (_race_cond_delay self) as [delay|]; [|discriminate Hd].
  unfold bind at 1, get_world in Hd.
  apply delayed_download_restart in Hd as (w0 & Hd & _); eauto.
  apply download_file_group_ok in Hd as (cs & _ & (_ & Hc' & Hm' & _) & _).
  now split.
Qed.

(** *** What the runs of a method add to the trace *)

Lemma runs_bind {A B} (J : Server -> Prop) (P : event -> Prop) (m : M A) (k : A -> M B) :
  runs J P m -> (forall a, runs J P (k a)) -> runs J P (bind m k).
Proof.
  intros Hm Hk w r w' HJ H. apply bind_cases in H as [(e & H & ->)|(a & w1 & H & H')].
  - exact (Hm _ _ _ HJ H).
  - destruct (Hm _ _ _ HJ H) as (HJ1 & es1 & E1 & F1).
    destruct (Hk a _ _ _ HJ1 H') as (HJ2 & es2 & E2 & F2).
    split; [assumption|]. exists (es1 ++ es2).
    split; [now rewrite E2, E1, app_assoc | now apply Forall_app].
Qed.

Lemma runs_try_except_else {A B} (J : Server -> Prop) (P : event -> Prop) (m : M A)
    (h : exn -> M B) (k : A -> M B) :
  runs J P m -> (forall e, runs J P (h e)) -> (forall a, runs J P (k a)) ->
  runs J P (try_except_else m h k).
Proof.
  intros Hm Hh Hk w r w' HJ H. unfold try_except_else in H.
  destruct (m w) as [[e|a] w1] eqn:E.
  - destruct (Hm _ _ _ HJ E) as (HJ1 & es1 & E1 & F1).
    destruct (Hh e _ _ _ HJ1 H) as (HJ2 & es2 & E2 & F2).
    split; [assumption|]. exists (es1 ++ es2).
    split; [now rewrite E2, E1, app_assoc | now apply Forall_app].
  - destruct (Hm _ _ _ HJ E) as (HJ1 & es1 & E1 & F1).
    destruct (Hk a _ _ _ HJ1 H) as (HJ2 & es2 & E2 & F2).
    split; [assumption|]. exists (es1 ++ es2).
    split; [now rewrite E2, E1, app_assoc | now apply Forall_app].
Qed.

Lemma runs_try_except {A} (J : Server -> Prop) (P : event -> Prop) (m : M A)
    (h : exn -> M A) :
  runs J P m -> (forall e, runs J P (h e)) -> runs J P (try_except m h).
Proof.
  intros Hm Hh w r w' HJ H. unfold try_except in H.
  destruct (m w) as [[e|a] w1] eqn:E.
  - destruct (Hm _ _ _ HJ E) as (HJ1 & es1 & E1 & F1).
    destruct (Hh e _ _ _ HJ1 H) as (HJ2 & es2 & E2 & F2).
    split; [assumption|]. exists (es1 ++ es2).
    split; [now rewrite E2, E1, app_assoc | now apply Forall_app].
  - injection H as <- <-. exact (Hm _ _ _ HJ E).
Qed.

(** A step that leaves the state as it is. *)
Lemma runs_silent {A} (J : Server -> Prop) (P : event -> Prop) (m : M A) :
  (forall w r w', m w = (r, w') -> w' = w) -> runs J P m.
Proof.
  intros Hm w r w' HJ H. apply Hm in H as ->. split; [assumption|].
  exists []. split; [symmetry; apply app_nil_r | constructor].
Qed.

(** A step that records at most the operation [e] and leaves the server as
    it is. *)
Lemma runs_step {A} (J : Server -> Prop) (P : event -> Prop) (m : M A) (e : event) :
  P e ->
  (forall w r w', m w = (r, w') ->
     remote w' = remote w /\
     (trace w' = trace w \/ exists d rs, trace w' = trace w ++ [(e, d, rs)])) ->
  runs J P m.
Proof.
  intros He Hm w r w' HJ H. apply Hm in H as (Hr & [Ht|(d & rs & Ht)]).
  - rewrite Hr. split; [assumption|]. exists [].
    split; [now rewrite app_nil_r | constructor].
  - rewrite Hr. split; [assumption|]. exists [(e, d, rs)].
    split; [assumption | repeat constructor; assumption].
Qed.

Ltac break_run H :=
  repeat match type of H with
         | context [match ?x with _ => _ end] => destruct x
         end;
  try discriminate H; injection H as <- <-.

Ltac silent_step :=
  apply runs_silent; intros w_ r_ w'_ H;
  cbv beta delta [ret raise lift get_item get_world path_exists json_load
                  glob_files listdir dir_modtime xnode_resource xnode_scan
                  walk_files] in H;
  break_run H; reflexivity.

Ltac disk_step :=
  eapply runs_step;
  [ | intros w_ r_ w'_ H;
      cbv beta delta [makedirs makedirs_exist_ok mkdir rmtree open_w json_dump
                      open_wb_in write_in extractall move_data copyfile copytree
                      get_json write_disk] in H;
      break_run H; (split; [reflexivity|]);
      solve [ left; reflexivity | right; eexists _, _; reflexivity ] ];
  try assumption.

Section Steps.

Context {A : Type} (J : Server -> Prop) (P : event -> Prop).

Lemma runs_ret (a : A) : runs J P (ret a).
Proof. silent_step. Qed.

Lemma runs_raise (e : exn) : runs J P (@raise A e).
Proof. silent_step. Qed.

Lemma runs_lift (r : result A) : runs J P (lift r).
Proof. silent_step. Qed.

End Steps.

Lemma runs_get_item (J : Server -> Prop) (P : event -> Prop) : runs J P get_item.
Proof. silent_step. Qed.

Lemma runs_get_world (J : Server -> Prop) (P : event -> Prop) : runs J P get_world.
Proof. silent_step. Qed.

Lemma runs_path_exists (J : Server -> Prop) (P : event -> Prop) (p : string) :
  runs J P (path_exists p).
Proof. silent_step. Qed.

Lemma runs_json_load (J : Server -> Prop) (P : event -> Prop) (p : string) :
  runs J P (json_load p).
Proof. silent_step. Qed.

Lemma runs_glob_files (J : Server -> Prop) (P : event -> Prop) (p : string) :
  runs J P (glob_files p).
Proof. silent_step. Qed.

Lemma runs_listdir (J : Server -> Prop) (P : event -> Prop) (p : string) :
  runs J P (listdir p).
Proof. silent_step. Qed.

Lemma runs_walk_files (J : Server -> Prop) (P : event -> Prop) (p : string) :
  runs J P (walk_files p).
Proof. silent_step. Qed.

Lemma runs_xnode_resource (J : Server -> Prop) (P : event -> Prop) (l : string) :
  runs J P (xnode_resource l).
Proof. silent_step. Qed.

Lemma runs_makedirs (J : Server -> Prop) (P : event -> Prop) (p : string) :
  P (Makedirs p) -> runs J P (makedirs p).
Proof. intros HP. disk_step. Qed.

Lemma runs_makedirs_exist_ok (J : Server -> Prop) (P : event -> Prop) (p : string) :
  P (Makedirs p) -> runs J P (makedirs_exist_ok p).
Proof. intros HP. disk_step. Qed.

Lemma runs_mkdir (J : Server -> Prop) (P : event -> Prop) (p : string) :
  P (Mkdir p) -> runs J P (mkdir p).
Proof. intros HP. disk_step. Qed.

Lemma runs_rmtree (J : Server -> Prop) (P : event -> Prop) (p : string) :
  P (Rmtree p) -> runs J P (rmtree p).
Proof. intros HP. disk_step. Qed.

Lemma runs_open_w (J : Server -> Prop) (P : event -> Prop) (p : string) :
  P (OpenWrite p) -> runs J P (open_w p).
Proof. intros HP. disk_step. Qed.

Lemma runs_json_dump (J : Server -> Prop) (P : event -> Prop) (p : string)
    (m : gmap string string) :
  P (JsonDump p m) -> runs J P (json_dump m p).
Proof. intros HP. disk_step. Qed.

Lemma runs_open_wb_in (J : Server -> Prop) (P : event -> Prop) (d f : string) :
  P (OpenWrite (PyStr.op_join d [f])) -> runs J P (open_wb_in d f).
Proof. intros HP. disk_step. Qed.

Lemma runs_write_in (J : Server -> Prop) (P : event -> Prop) (d f : string) (c : fdata) :
  P (Write (PyStr.op_join d [f])) -> runs J P (write_in d f c).
Proof. intros HP. disk_step. Qed.

Lemma runs_extractall (J : Server -> Prop) (P : event -> Prop) (d f : string) :
  P (Extractall (PyStr.op_join d [f]) (PyStr.op_join d ["expanded"])) ->
  runs J P (extractall d f).
Proof. intros HP. disk_step. Qed.

Lemma runs_move_data (J : Server -> Prop) (P : event -> Prop) (d dst : string) :
  P (Move (PyStr.op_join d ["expanded"] +:+ "/**/files") dst) ->
  runs J P (move_data d dst).
Proof. intros HP. disk_step. Qed.

Lemma runs_copyfile (J : Server -> Prop) (P : event -> Prop) (src d f : string) :
  P (CopyFile src (PyStr.op_join d [f])) -> runs J P (copyfile src d f).
Proof. intros HP. disk_step. Qed.

Lemma runs_copytree (J : Server -> Prop) (P : event -> Prop) (src dst : string) :
  P (CopyTree src dst) -> runs J P (copytree src dst).
Proof. intros HP. disk_step. Qed.

Lemma runs_get_json (J : Server -> Prop) (P : event -> Prop) (u : string) :
  P (GetJson u) -> runs J P (get_json u).
Proof. intros HP. disk_step. Qed.

Lemma runs_download_stream (J : Server -> Prop) (P : event -> Prop) (u d f : string) :
  P (DownloadStream u) -> P (Write (PyStr.op_join d [f])) ->
  runs J P (download_stream u d f).
Proof.
  intros H1 H2 w r w' HJ H. unfold download_stream in H.
  destruct (files (remote w) !! u).
  - destruct (runs_write_in J P d f (ZipBytes (archive r0)) H2
                (log (DownloadStream u) w) r w' HJ H) as (HJ' & es & E & F).
    split; [assumption|]. exists ((DownloadStream u, fs w, resources (remote w)) :: es).
    split; [rewrite E; cbn [trace log]; now rewrite <- app_assoc|].
    constructor; assumption.
  - injection H as <- <-. split; [assumption|]. eexists [_].
    split; [reflexivity | repeat constructor; assumption].
Qed.

Lemma runs_assign_uri (J : Server -> Prop) (P : event -> Prop) (u : string) :
  runs J P (assign_uri u).
Proof.
  intros w r w' HJ H. injection H as <- <-. split; [assumption|].
  exists []. split; [symmetry; apply app_nil_r | constructor].
Qed.

Lemma runs_for_each {A} (J : Server -> Prop) (P : event -> Prop) (l : list A)
    (body : A -> M unit) :
  (forall x, runs J P (body x)) -> runs J P (for_each l body).
Proof.
  intros Hb. induction l as [|x l IH]; cbn [for_each].
  - apply runs_ret.
  - apply runs_bind; [apply Hb | intros _; exact IH].
Qed.

(** A step that changes the resources of the node. *)
Lemma runs_write_resources (J : Server -> Prop) (P : event -> Prop) (e : event)
    (f : gmap string XResource -> gmap string XResource) :
  P e -> (forall s, J s -> J (set_resources (f (resources s)) s)) ->
  runs J P (fun w => write_resources e (f (resources (remote w))) w).
Proof.
  intros He Hf w r w' HJ H. injection H as <- <-. cbn [remote log set_remote].
  split; [now apply Hf|]. eexists [_]. split; [reflexivity | repeat constructor; assumption].
Qed.

Ltac runs_go :=
  repeat first
    [ apply runs_ret | apply runs_raise | apply runs_lift
    | apply runs_get_item | apply runs_get_world | apply runs_path_exists
    | apply runs_json_load | apply runs_glob_files | apply runs_listdir
    | apply runs_walk_files | apply runs_xnode_resource | apply runs_assign_uri
    | apply runs_bind; [|intros ?]
    | apply runs_try_except; [|intros ?]
    | apply runs_try_except_else; [|intros ?|intros ?]
    | apply runs_for_each; intros ?
    | apply runs_makedirs | apply runs_makedirs_exist_ok | apply runs_mkdir
    | apply runs_rmtree | apply runs_open_w | apply runs_json_dump
    | apply runs_open_wb_in | apply runs_write_in | apply runs_extractall
    | apply runs_move_data | apply runs_copyfile | apply runs_copytree
    | apply runs_get_json | apply runs_download_stream
    | progress cbv zeta
    | match goal with
      | |- runs _ _ (match ?x with _ => _ end) => destruct x
      end ].

Lemma runs_get_checksums (J : Server -> Prop) (P : event -> Prop) (self : Xnat) :
  (forall u, P (GetJson u)) -> runs J P (get_checksums self).
Proof. intros HP. unfold get_checksums. runs_go. apply HP. Qed.

Lemma runs_write_manifest (J : Server -> Prop) (P : event -> Prop) (cp : string)
    (cs : gmap string string) :
  P (OpenWrite (manifest_of cp)) -> P (JsonDump (manifest_of cp) cs) ->
  runs J P (write_manifest cp cs).
Proof. intros H1 H2. unfold write_manifest. runs_go; assumption. Qed.

(** The two lines that write the manifest write it in place. *)
Lemma write_manifest_in_place (cp : string) (cs : gmap string string) (w w' : World) :
  write_manifest cp cs w = (inr tt, w') -> in_place_write (manifest_of cp) w w'.
Proof.
  unfold write_manifest, bind, open_w, json_dump, write_disk. fold (manifest_of cp).
  intros H.
  assert (E : w' = log (JsonDump (manifest_of cp) cs)
                     (set_fs (<[manifest_of cp := File (JsonText cs)]>
                                (<[manifest_of cp := File Empty]> (fs w)))
                        (log (OpenWrite (manifest_of cp))
                           (set_fs (<[manifest_of cp := File Empty]> (fs w)) w)))).
  { destruct (fs w !! manifest_of cp) as [[?|? ? ?]|]; try discriminate H;
      now injection H as <-. }
  subst w'. exists cs, [], []. eexists _, _, _, _. cbn [trace log set_fs fs].
  split; [now rewrite app_nil_r, <- app_assoc|].
  split; [apply lookup_insert_eq|]. split; [apply lookup_insert_eq | constructor].
Qed.

(** Operations before and after an in-place write, none of them a rename
    onto the file. *)
Lemma in_place_before (p : string) (w w1 w' : World)
    (es : list (event * disk * gmap string XResource)) :
  trace w1 = trace w ++ es ->
  Forall (fun x => renames_onto p x.1.1 = false) es ->
  in_place_write p w1 w' -> in_place_write p w w'.
Proof.
  intros E F (cs & pre & post & d1 & rs1 & d2 & rs2 & Et & H1 & H2 & Hf).
  exists cs, (es ++ pre), post, d1, rs1, d2, rs2.
  split; [rewrite Et, E, <- !app_assoc; reflexivity|].
  split; [assumption|]. split; [assumption|].
  rewrite <- app_assoc. apply Forall_app. split; assumption.
Qed.

Lemma in_place_after (p : string) (w w1 w' : World)
    (es : list (event * disk * gmap string XResource)) :
  in_place_write p w w1 ->
  trace w' = trace w1 ++ es ->
  Forall (fun x => renames_onto p x.1.1 = false) es ->
  in_place_write p w w'.
Proof.
  intros (cs & pre & post & d1 & rs1 & d2 & rs2 & Et & H1 & H2 & Hf) E F.
  exists cs, pre, (post ++ es), d1, rs1, d2, rs2.
  split; [rewrite E, Et, <- !app_assoc; reflexivity|].
  split; [assumption|]. split; [assumption|].
  rewrite app_assoc. apply Forall_app. split; assumption.
Qed.

(** Take the first step off a run that succeeded, when the goal is an
    in-place write over the whole run. *)
Ltac peel H :=
  let a := fresh "a" in
  let w1 := fresh "w" in
  let Hs := fresh "Hs" in
  let R := fresh "R" in
  let es := fresh "es" in
  let E := fresh "E" in
  let F := fresh "F" in
  apply bind_inr in H as (a & w1 & Hs & H);
  match type of Hs with
  | ?m ?w0 = _ =>
      match goal with
      | |- in_place_write ?p _ _ =>
          assert (R : runs (fun _ => True) (fun e => renames_onto p e = false) m)
            by (repeat first [ apply runs_get_checksums; intros ?
                             | apply runs_write_manifest
                             | progress runs_go ];
                try reflexivity);
          destruct (R _ _ _ I Hs) as (_ & es & E & F); clear R;
          apply (in_place_before p w0 w1 _ es E F); clear E F
      end
  end.

Lemma move_not_onto_manifest (src cp : string) :
  renames_onto (manifest_of cp) (Move src cp) = false.
Proof. cbn. apply String.eqb_neq. paths_ne. Qed.

Lemma download_file_group_in_place (self : Xnat) (u cp : string) (w w' : World) :
  download_file_group self (marker_of cp) u cp w = (inr tt, w') ->
  in_place_write (manifest_of cp) w w'.
Proof.
  unfold download_file_group. intros H.
  peel H. peel H. peel H. peel H. peel H. peel H.
  apply bind_inr in H as (am & wm & Hmv & H).
  destruct (runs_move_data (fun _ => True) (fun e => renames_onto (manifest_of cp) e = false)
              (marker_of cp) cp (move_not_onto_manifest _ cp) _ _ _ I Hmv)
    as (_ & esm & Em & Fm).
  apply (in_place_before _ _ _ _ esm Em Fm).
  now apply write_manifest_in_place in H.
Qed.

Lemma runs_resource_delete (J : Server -> Prop) (P : event -> Prop) (l : string) :
  P (ResourceDelete l) ->
  (forall s, J s -> J (set_resources (delete l (resources s)) s)) ->
  runs J P (resource_delete l).
Proof.
  intros HP HJ. unfold resource_delete.
  exact (runs_write_resources J P (ResourceDelete l) (delete l) HP HJ).
Qed.

Lemma runs_resource_create (J : Server -> Prop) (P : event -> Prop) (l fmt : string) :
  P (ResourceCreate l fmt) ->
  (forall s, J s ->
     J (set_resources (<[l := {| label := l; format := fmt; uploaded := [] |}]>
                         (resources s)) s)) ->
  runs J P (resource_create l fmt).
Proof.
  intros HP HJ. unfold resource_create.
  exact (runs_write_resources J P (ResourceCreate l fmt)
           (insert l {| label := l; format := fmt; uploaded := [] |}) HP HJ).
Qed.

Lemma runs_upload (J : Server -> Prop) (P : event -> Prop) (l f : string) :
  P (Upload l f) ->
  (forall s, J s ->
     J (set_resources
          (alter (fun r => {| label := label r; format := format r;
                              uploaded := uploaded r ++ [f] |}) l (resources s)) s)) ->
  runs J P (upload l f).
Proof.
  intros HP HJ. unfold upload.
  exact (runs_write_resources J P (Upload l f) _ HP HJ).
Qed.

(** No method but [download_file_group] moves a file: the provenance and the
    replacement of the resource add no rename to the trace. *)
Lemma put_provenance_no_rename (self : Xnat) (prov p : string) :
  runs (fun _ => True) (fun e => renames_onto p e = false)
    (put_provenance hierarchy clinical_str self prov).
Proof.
  unfold put_provenance.
  repeat first [ progress runs_go
               | apply runs_resource_create; [|auto]
               | apply runs_upload; [|auto] ];
    reflexivity.
Qed.

Lemma replace_resource_no_rename (fmt : FileFormat) (n p : string) :
  runs (fun _ => True) (fun e => renames_onto p e = false) (replace_resource fmt n).
Proof.
  unfold replace_resource.
  repeat first [ progress runs_go
               | apply runs_resource_create; [|auto]
               | apply runs_resource_delete; [|auto]
               | apply runs_upload; [|auto] ];
    reflexivity.
Qed.

Lemma put_in_cache_in_place (self : Xnat) (fmt : FileFormat) (w w' : World)
    (bn : option string) :
  put_in_cache hierarchy clinical_str self fmt w = (inr bn, w') ->
  exists u, uri_for_put hierarchy clinical_str (item w) (remote w) = inr u /\
            in_place_write (manifest_of (cache_of self u)) w w'.
Proof.
  unfold put_in_cache, uri_for_put. intros H.
  unfold bind at 1, get_item at 1 in H.
  apply bind_inr in H as (b & w1 & Hb & H).
  assert (Hpre : (exists u, uri (item w1) = Some u /\ trace w1 = trace w /\
                   (if uri_unset (uri (item w))
                    then match escape_name hierarchy clinical_str (item w) with
                         | inl e => inl e
                         | inr n => inr (node_uri (remote w) +:+ "/resources/" +:+ n)
                         end
                    else match uri (item w) with
                         | Some u => inr u
                         | None => inl ArcanaError
                         end) = inr u) \/ (uri (item w1) = None /\ trace w1 = trace w)).
  { destruct (uri_unset (uri (item w))) eqn:Eu.
    - unfold bind at 1, get_world, bind at 1, lift in Hb.
      destruct (escape_name hierarchy clinical_str (item w)) as [e|n]; [discriminate Hb|].
      unfold bind, assign_uri, ret in Hb. injection Hb as <- <-.
      left. eexists. repeat split; reflexivity.
    - unfold ret in Hb. injection Hb as <- <-.
      destruct (uri (item w)) as [u|]; [left; eauto | right; eauto]. }
  unfold bind at 1, get_item at 1 in H.
  destruct Hpre as [(u & Hu & Ht & Hput)|[Hu Ht]]; rewrite Hu in H;
    [|discriminate H].
  exists u. split; [exact Hput|].
  unfold bind at 1, lift, cache_path in H. fold (cache_of self u) in H.
  apply (in_place_before _ w w1 w' []); [now rewrite app_nil_r | constructor |].
  peel H. peel H. peel H. peel H.
  apply bind_inr in H as ([] & wm & Hwm & H).
  apply write_manifest_in_place in Hwm.
  assert (R : runs (fun _ => True)
                (fun e => renames_onto (manifest_of (cache_of self u)) e = false)
                (let* _ := match provenance (item w1) with
                           | Some prov => put_provenance hierarchy clinical_str self prov
                           | None => ret tt
                           end in ret b)).
  { apply runs_bind; [|intros ?; apply runs_ret].
    destruct (provenance (item w1)); [apply put_provenance_no_rename | apply runs_ret]. }
  destruct (R _ _ _ I H) as (_ & esr & Er & Fr).
  exact (in_place_after _ _ _ _ esr Hwm Er Fr).
Qed.

(** C3, as amended.  Both writes of the manifest, after a download in
    [download_file_group] and after the copy into the cache in
    [put_file_group], are made in place: the method opens
    [<cache path>.md5.json] itself for writing, which leaves the file empty on
    the disk until [json.dump] has written the text into it, and no
    operation of the run renames a file onto the manifest.  There is no
    temporary file. *)
Theorem manifest_written_in_place (self : Xnat) (u cp : string) (w w' : World) :
  (download_file_group self (marker_of cp) u cp w = (inr tt, w') ->
   in_place_write (manifest_of cp) w w') /\
  (put_file_group hierarchy clinical_str self w = (inr tt, w') ->
   exists u', uri_for_put hierarchy clinical_str (item w) (remote w) = inr u' /\
              in_place_write (manifest_of (cache_of self u')) w w').
Proof.
  split; [apply download_file_group_in_place|].
  unfold put_file_group. intros H.
  unfold bind at 1, get_item at 1 in H.
  destruct (data_format (item w)) as [fmt|]; [|discriminate H].
  apply bind_inr in H as ([] & w1 & Hc & H).
  assert (w1 = w) as ->.
  { unfold _check_repository, bind, get_item in Hc.
    destruct (Nat.eqb _ _); [now injection Hc as <-|discriminate Hc]. }
  apply bind_inr in H as (bn & w2 & Hp & H).
  apply put_in_cache_in_place in Hp as (u' & Hu' & Hw).
  exists u'. split; [exact Hu'|].
  destruct bn as [n|]; [|discriminate H].
  destruct (replace_resource_no_rename fmt n (manifest_of (cache_of self u')) _ _ _ I H)
    as (_ & esr & Er & Fr).
  exact (in_place_after _ _ _ _ esr Hw Er Fr).
Qed.

(** ** Storing an item: [put_file_group] *)

(** A lookup of a resource that the invariant of the server guarantees
    succeeds: the handler of the [try] does not run. *)
Lemma runs_found_resource {B} (J : Server -> Prop) (P : event -> Prop) (l : string)
    (h : exn -> M B) (k : XResource -> M B) :
  (forall s, J s -> is_Some (resources s !! l)) ->
  (forall a, runs J P (k a)) ->
  runs J P (try_except_else (xnode_resource l) h k).
Proof.
  intros Hl Hk w r w' HJ H. unfold try_except_else, xnode_resource in H.
  destruct (Hl _ HJ) as [x Hx]. rewrite Hx in H. exact (Hk x _ _ _ HJ H).
Qed.

Lemma replaces_other (n l fmt : string) :
  l <> n -> replaces n (ResourceCreate l fmt) = false.
Proof. intros H. cbn. now apply String.eqb_neq. Qed.

(** While the resource [n] exists, the provenance is stored without deleting
    or creating [n]. *)
Lemma put_provenance_keeps (self : Xnat) (prov n : string) :
  runs (fun s => is_Some (resources s !! n)) (fun e => replaces n e = false)
    (put_provenance hierarchy clinical_str self prov).
Proof.
  unfold put_provenance.
  apply runs_bind; [apply runs_get_world | intros w0].
  destruct (PROV_RESOURCE self) as [pr|]; [|apply runs_raise].
  assert (Hup : forall f, runs (fun s => is_Some (resources s !! n))
                            (fun e => replaces n e = false) (upload pr f)).
  { intros f. apply runs_upload; [reflexivity|].
    intros s Hs. cbn. now apply lookup_alter_is_Some. }
  repeat (apply runs_bind; [|intros ?]); try apply Hup;
    try (runs_go; reflexivity).
  destruct (decide (pr = n)) as [->|Hne].
  - apply runs_found_resource; [auto | intros ?; apply runs_ret].
  - apply runs_try_except_else; [apply runs_xnode_resource | intros e | intros ?; apply runs_ret].
    destruct (bool_decide (e = KeyError)); [|apply runs_raise].
    apply runs_resource_create; [now apply replaces_other|].
    intros s Hs. cbn. now rewrite lookup_insert_ne.
Qed.

Opaque put_provenance.

Lemma put_in_cache_keeps (self : Xnat) (fmt : FileFormat) (n : string) :
  runs (fun s => is_Some (resources s !! n)) (fun e => replaces n e = false)
    (put_in_cache hierarchy clinical_str self fmt).
Proof.
  unfold put_in_cache.
  repeat first [ apply put_provenance_keeps
               | apply runs_write_manifest
               | progress runs_go ];
    reflexivity.
Qed.

Transparent put_provenance.




(** The name that [put_file_group] has bound when the copy into the cache is
    done is the escaped name of the item. *)
Lemma put_in_cache_name (self : Xnat) (fmt : FileFormat) (w w' : World) (n : string) :
  put_in_cache hierarchy clinical_str self fmt w = (inr (Some n), w') ->
  escape_name hierarchy clinical_str (item w) = inr n.
Proof.
  unfold put_in_cache. intros H.
  unfold bind at 1, get_item at 1 in H.
  apply bind_inr in H as (b & w1 & Hb & H).
  do 8 (apply bind_inr in H as (? & ? & _ & H)).
  injection H as -> _.
  destruct (uri_unset (uri (item w))); [|discriminate Hb].
  unfold bind at 1, get_world, bind at 1, lift in Hb.
  destruct (escape_name hierarchy clinical_str (item w)) as [e|n0]; [discriminate Hb|].
  unfold bind, assign_uri, ret in Hb. now injection Hb as ->.
Qed.


(** ** Resolving an item twice *)










Lemma append_nonempty_r (a b : string) : b <> "" -> a +:+ b <> "".
Proof.
  intros Hb H. apply (f_equal String.length) in H. rewrite append_length in H.
  destruct b; [congruence | simpl in H; lia].
Qed.

(** [resolve_uri] leaves an item with a URI, and touches nothing but the
    URI and the id of the item. *)
Lemma resolve_uri_effect (self : Xnat) (w wa : World) :
  resolve_uri hierarchy clinical_str self w = (inr tt, wa) ->
  fs wa = fs w /\ others wa = others w /\ remote wa = remote w /\
  trace wa = trace w /\
  data_format (item wa) = data_format (item w) /\
  data_node (item wa) = data_node (item w) /\
  exists u, uri (item wa) = Some u /\ u <> "".
Proof.
  unfold resolve_uri. intros H. unfold bind at 1, get_item at 1 in H.
  destruct (uri_unset (uri (item w))) eqn:Eu.
  - unfold bind at 1, get_world in H.
    destruct (derived (item w)).
    + unfold bind at 1, lift in H.
      destruct (escape_name hierarchy clinical_str (item w)) as [e|n]; [discriminate H|].
      unfold bind at 1, xnode_resource in H.
      destruct (resources (remote w) !! n) as [x|]; [|discriminate H].
      unfold assign_uri in H. injection H as <-. cbn.
      repeat split. eexists. split; [reflexivity|].
      apply append_nonempty_r. rewrite append_cons. discriminate.
    + unfold bind at 1, xnode_scan in H.
      destruct (scans (remote w) !! name (item w)) as [x|]; [|discriminate H].
      unfold bind at 1, assign_id in H. cbn [item set_item xscan_id] in H.
      destruct (xscan_resources x !! _) as [y|]; [|discriminate H].
      unfold assign_uri in H. injection H as <-. cbn.
      repeat split. eexists. split; [reflexivity|].
      apply append_nonempty_r. rewrite append_cons. discriminate.
  - unfold ret in H. injection H as <-. repeat split.
    unfold uri_unset in Eu. destruct (uri (item w)) as [u|]; [|discriminate Eu].
    exists u. split; [reflexivity|]. now apply String.eqb_neq.
Qed.



End Download.

(** ** The statements above on the fixture *)

(** The theorem of C4 where the manifest of the cached scan holds a single
    brace. *)
Lemma unparsable_manifest_is_fatal_witness :
  let w := Fixture.world Fixture.scan Fixture.good_zip Fixture.broken_manifest in
  (forall d, fs w !! manifest_of Fixture.cache = Some (File d) ->
             (forall m, d <> JsonText m) ->
             get_file_group_paths Fixture.layers Fixture.member_name Fixture.repo w
             = (inl JSONDecodeError, w)) /\
  (fs w !! manifest_of Fixture.cache = None ->
   need_to_download Fixture.repo Fixture.cache w = (inr true, w)).
Proof.
  apply (unparsable_manifest_is_fatal Fixture.layers Fixture.member_name Fixture.repo
           (Fixture.world Fixture.scan Fixture.good_zip Fixture.broken_manifest)
           Fixture.scan_uri Fixture.nifti (Dir 7 {[ "t1w.nii" := Bytes "NIFTI-DATA" ]} None));
    vm_compute; try reflexivity; discriminate.
Defined.

(** C4 as stated fails: the cached scan has a manifest that is not JSON;
    the call raises [JSONDecodeError], fetches nothing and leaves the broken
    manifest in place. *)
Lemma unparsable_manifest_not_redownloaded :
  let w := Fixture.world Fixture.scan Fixture.good_zip Fixture.broken_manifest in
  let r := get_file_group_paths Fixture.layers Fixture.member_name Fixture.repo w in
  r.1 = inl JSONDecodeError /\
  events r.2 = [] /\
  fs r.2 !! manifest_of Fixture.cache = Some (File (Bytes "{")).
Proof. vm_compute. repeat split; reflexivity. Qed.

(** The theorem of C6 on a cache path that exists without a manifest. *)
Lemma delayed_download_adopts_existing_path_witness :
  let w := Fixture.world Fixture.scan Fixture.good_zip Fixture.unfinished in
  _delayed_download 1000 Fixture.repo (marker_of Fixture.cache) Fixture.scan_uri
    Fixture.cache 30 w = (inr tt, (sleep 30 w).2) /\
  events (sleep 30 w).2 = events w ++ [Sleep 30].
Proof.
  apply (delayed_download_adopts_existing_path Fixture.repo 999 30 Fixture.scan_uri
           Fixture.cache (Fixture.world Fixture.scan Fixture.good_zip Fixture.unfinished)
           7 {[ "download.zip" := ZipBytes Fixture.good_zip ]} (Some None)).
  - vm_compute. reflexivity.
  - vm_compute. eauto.
Defined.

(** C6 as stated fails: the cache path exists, there is no manifest file and
    the download directory of another process is still there.  The waiting
    process returns after one sleep without a download, in
    [_delayed_download] and so in [get_file_group_paths], and there is still
    no manifest. *)
Lemma adopted_without_manifest :
  let w := Fixture.world Fixture.scan Fixture.good_zip Fixture.unfinished in
  let r := _delayed_download 1000 Fixture.repo (marker_of Fixture.cache)
             Fixture.scan_uri Fixture.cache 30 w in
  let r' := get_file_group_paths Fixture.layers Fixture.member_name Fixture.repo w in
  fs w !! manifest_of Fixture.cache = None /\
  r.1 = inr tt /\ events r.2 = [Sleep 30] /\
  r'.1 = inr (Fixture.cache +:+ "/t1w.nii", Some []) /\ events r'.2 = [Sleep 30] /\
  fs r'.2 !! manifest_of Fixture.cache = None.
Proof. vm_compute. repeat split; reflexivity. Qed.

(** The theorem of C1 on the scan, with nothing on the disk and a corrupt
    archive on the server. *)
Lemma corrupt_archive_leaves_marker_witness :
  let w := Fixture.world Fixture.scan BadZip ∅ in
  exists e w',
    get_file_group_paths Fixture.layers Fixture.member_name Fixture.repo w = (inl e, w') /\
    fs w' !! marker_of Fixture.cache
      = Some (Dir 100 {[ "download.zip" := ZipBytes BadZip ]} None) /\
    fs w' !! Fixture.cache = None /\
    fs w' !! manifest_of Fixture.cache = fs w !! manifest_of Fixture.cache /\
    makedirs (marker_of Fixture.cache) w' = (inl (OSError EEXIST), w').
Proof.
  apply (corrupt_archive_leaves_marker Fixture.layers Fixture.member_name Fixture.repo
           (Fixture.world Fixture.scan BadZip ∅) Fixture.scan_uri Fixture.nifti
           {| listing := [("t1w.nii", "abc123")]; archive := BadZip |});
    vm_compute; try reflexivity; discriminate.
Defined.

(** C1 as stated fails: after the failed download of the scan the download
    directory exists, and the next call on the same item finds it, waits in
    [_delayed_download] and only then starts over. *)
Lemma failed_download_leaves_marker :
  let w := Fixture.world Fixture.scan BadZip ∅ in
  let r := get_file_group_paths Fixture.layers Fixture.member_name Fixture.repo w in
  let r' := get_file_group_paths Fixture.layers Fixture.member_name Fixture.repo r.2 in
  r.1 = inl ArcanaError /\
  is_Some (fs r.2 !! marker_of Fixture.cache) /\
  firstn 1 (skipn (length (events r.2)) (events r'.2)) = [Sleep 30].
Proof. vm_compute. repeat split; eauto. Qed.

(** The theorem of C2 on the scan, with an empty download directory left
    behind at time 5 and nothing else on the disk. *)
Lemma stale_marker_left_after_download_witness :
  exists v w',
    get_file_group_paths Fixture.layers Fixture.member_name Fixture.repo
      (Fixture.world Fixture.scan Fixture.good_zip Fixture.stale_marker) = (inr v, w') /\
    is_Some (fs w' !! cache_of Fixture.repo Fixture.scan_uri) /\
    is_Some (fs w' !! marker_of (cache_of Fixture.repo Fixture.scan_uri)).
Proof.
  destruct (get_file_group_paths Fixture.layers Fixture.member_name Fixture.repo
              (Fixture.world Fixture.scan Fixture.good_zip Fixture.stale_marker))
    as [[e|v] w'] eqn:E.
  - vm_compute in E. discriminate E.
  - exists v, w'. split; [reflexivity|].
    apply (stale_marker_left_after_download Fixture.layers Fixture.member_name
             Fixture.repo
             (Fixture.world Fixture.scan Fixture.good_zip Fixture.stale_marker)
             w' Fixture.scan_uri Fixture.nifti v);
      [ reflexivity | reflexivity | reflexivity | discriminate
      | vm_compute; eauto | vm_compute; reflexivity | reflexivity | exact E ].
Defined.

(** The run of that call: one sleep, the stale directory removed and made
    again, the download, and no removal at the end. *)
Lemma stale_marker_run :
  let w := Fixture.world Fixture.scan Fixture.good_zip Fixture.stale_marker in
  let r := get_file_group_paths Fixture.layers Fixture.member_name Fixture.repo w in
  r.1 = inr (Fixture.cache +:+ "/t1w.nii", Some []) /\
  events r.2 =
    [ Sleep 30;
      Rmtree (marker_of Fixture.cache);
      Mkdir (marker_of Fixture.cache);
      OpenWrite (marker_of Fixture.cache +:+ "/download.zip");
      DownloadStream (Fixture.scan_uri +:+ "/files");
      Write (marker_of Fixture.cache +:+ "/download.zip");
      GetJson (Fixture.scan_uri +:+ "/files");
      Extractall (marker_of Fixture.cache +:+ "/download.zip")
                 (marker_of Fixture.cache +:+ "/expanded");
      Move (marker_of Fixture.cache +:+ "/expanded/**/files") Fixture.cache;
      OpenWrite (manifest_of Fixture.cache);
      JsonDump (manifest_of Fixture.cache) {[ "." := "abc123" ]} ] /\
  fs r.2 !! marker_of Fixture.cache
  = Some (Dir 130 {[ "download.zip" := ZipBytes Fixture.good_zip ]} (Some None)).
Proof. vm_compute. repeat split; reflexivity. Qed.

(** The theorem of C3 on a download of the scan into a download directory
    that exists, and on the upload of the derivative. *)
Lemma manifest_written_in_place_witness :
  let w0 := Fixture.world Fixture.scan Fixture.good_zip Fixture.stale_marker in
  let w1 := Fixture.world Fixture.derivative Fixture.good_zip Fixture.workdir in
  in_place_write (manifest_of Fixture.cache) w0
    (download_file_group Fixture.repo (marker_of Fixture.cache) Fixture.scan_uri
       Fixture.cache w0).2 /\
  exists u', uri_for_put Fixture.layers Fixture.member_name (item w1) (remote w1) = inr u' /\
             in_place_write (manifest_of (cache_of Fixture.repo u')) w1
               (put_file_group Fixture.layers Fixture.member_name Fixture.repo w1).2.
Proof.
  split.
  - apply (proj1 (manifest_written_in_place Fixture.layers Fixture.member_name
                    Fixture.repo Fixture.scan_uri Fixture.cache _ _)).
    vm_compute. reflexivity.
  - apply (proj2 (manifest_written_in_place Fixture.layers Fixture.member_name
                    Fixture.repo "" "" _ _)).
    vm_compute. reflexivity.
Defined.

(** C3 as stated fails: in the download of the scan and in the upload of the
    derivative the manifest is not written by renaming a file onto it; it is
    opened under its own name, and a reader that looks at it right after the
    [open] finds an empty file. *)
Lemma manifest_not_written_atomically :
  let r := get_file_group_paths Fixture.layers Fixture.member_name Fixture.repo
             (Fixture.world Fixture.scan Fixture.good_zip ∅) in
  let r' := put_file_group Fixture.layers Fixture.member_name Fixture.repo
              (Fixture.world Fixture.derivative Fixture.good_zip Fixture.workdir) in
  r.1 = inr (Fixture.cache +:+ "/t1w.nii", Some []) /\
  written_by_rename (manifest_of Fixture.cache) (events r.2) = false /\
  seen_after_open (manifest_of Fixture.cache) (trace r.2) = [Some (File Empty)] /\
  r'.1 = inr tt /\
  written_by_rename (manifest_of Fixture.derivative_cache) (events r'.2) = false /\
  seen_after_open (manifest_of Fixture.derivative_cache) (trace r'.2) = [Some (File Empty)].
Proof. vm_compute. repeat split; reflexivity. Qed.


(** The operations on the server in that upload, each with the files of the
    resource [brain] as it leaves them: the old resource is gone before the
    new one exists. *)
Lemma put_file_group_run :
  let w := Fixture.world Fixture.derivative Fixture.good_zip Fixture.workdir in
  let r := put_file_group Fixture.layers Fixture.member_name Fixture.repo w in
  r.1 = inr tt /\
  map (fun x => (x.1.1, uploaded <$> x.2 !! "brain")) (drop 5 (trace r.2)) =
    [ (ResourceDelete "brain", None);
      (ResourceCreate "brain" "NIFTI", Some []);
      (Upload "brain" "brain.nii", Some ["brain.nii"]);
      (Upload "brain" "brain.json", Some ["brain.nii"; "brain.json"]) ].
Proof. vm_compute. split; reflexivity. Qed.


(** The two calls on the fixture: the first downloads, the second asks the
    server for the checksums and returns the same paths. *)
Lemma resolve_twice_run :
  let c1 := get_file_group_paths Fixture.layers Fixture.member_name Fixture.repo
              (Fixture.world Fixture.scan Fixture.good_zip ∅) in
  let c2 := get_file_group_paths Fixture.layers Fixture.member_name Fixture.repo c1.2 in
  c1.1 = inr (Fixture.cache +:+ "/t1w.nii", Some []) /\
  c2.1 = c1.1 /\
  existsb is_transfer (events c1.2) = true /\
  drop (length (events c1.2)) (events c2.2) = [GetJson (Fixture.scan_uri +:+ "/files")].
Proof. vm_compute. repeat split; reflexivity. Qed.


(** * Further properties of the methods *)

(** ** Splitting and joining at one character *)

Section SplitFacts.

Import PyStr.

Variable d : ascii.

Lemma split_from_char (c : ascii) (cur s : string) :
  split_from (String d "") 0 cur (String c s) =
  if Ascii.eqb c d then cur :: split_from (String d "") 0 "" s
  else split_from (String d "") 0 (cur +:+ String c "") s.
Proof.
  change (split_from (String d "") 0 cur (String c s))
    with (if String.prefix (String d "") (String c s)
          then cur :: split_from (String d "") 0 "" s
          else split_from (String d "") 0 (cur +:+ String c "") s).
  change (String.prefix (String d "") (String c s))
    with (if Ascii.ascii_dec d c then String.prefix "" s else false).
  destruct (Ascii.ascii_dec d c) as [<-|Hne].
  - rewrite Ascii.eqb_refl. destruct s; reflexivity.
  - destruct (Ascii.eqb_spec c d) as [->|_]; [congruence | reflexivity].
Qed.

(** Splitting on both sides of a separator. *)
Lemma split_from_app (p cur s : string) :
  split_from (String d "") 0 cur (p +:+ String d s) =
  split_from (String d "") 0 cur p ++ split_from (String d "") 0 "" s.
Proof.
  revert cur. induction p as [|c p IH]; intros cur.
  - rewrite append_nil_l, split_from_char, Ascii.eqb_refl. reflexivity.
  - rewrite append_cons, !split_from_char. destruct (Ascii.eqb c d).
    + rewrite IH. reflexivity.
    + apply IH.
Qed.

Lemma split_app (p s : string) :
  split (String d "") (p +:+ String d s) = split (String d "") p ++ split (String d "") s.
Proof. apply split_from_app. Qed.

(** A string without the separator is one piece. *)
Lemma split_from_free (cur s : string) :
  char_free d s = true -> split_from (String d "") 0 cur s = [cur +:+ s].
Proof.
  revert cur. induction s as [|c s IH]; intros cur H.
  - now rewrite append_nil_r.
  - simpl in H. apply andb_prop in H as [Hc Hs]. rewrite split_from_char.
    destruct (Ascii.eqb c d); [discriminate Hc|].
    rewrite IH by assumption. now rewrite append_assoc.
Qed.

Lemma split_free (s : string) :
  char_free d s = true -> split (String d "") s = [s].
Proof. apply split_from_free. Qed.

End SplitFacts.

Lemma slash_free_char_free (s : string) : PyStr.slash_free s = char_free "/" s.
Proof. induction s as [|c s IH]; [reflexivity | simpl; now rewrite IH]. Qed.

Lemma split_slash_app (p s : string) :
  PyStr.split "/" (p +:+ "/" +:+ s) = PyStr.split "/" p ++ PyStr.split "/" s.
Proof. apply (split_app "/"). Qed.

Lemma split_slash_one (s : string) :
  PyStr.slash_free s = true -> PyStr.split "/" s = [s].
Proof. rewrite slash_free_char_free. apply (split_free "/"). Qed.

Lemma split_nonempty (s : string) : PyStr.split "/" s <> [].
Proof.
  unfold PyStr.split. destruct (split_from_cons "" s) as (x & r & ->). discriminate.
Qed.

Lemma join_snoc (sep x : string) (l : list string) :
  l <> [] -> PyStr.join sep (l ++ [x]) = PyStr.join sep l +:+ sep +:+ x.
Proof.
  induction l as [|a l IH]; [congruence|]. intros _.
  destruct l as [|b l]; [reflexivity|].
  change ((a :: b :: l) ++ [x]) with (a :: ((b :: l) ++ [x])).
  change ((b :: l) ++ [x]) with (b :: (l ++ [x])) at 1.
  rewrite join_cons.
  change (b :: (l ++ [x])) with ((b :: l) ++ [x]).
  rewrite IH by discriminate. rewrite join_cons. now rewrite !append_assoc.
Qed.

Lemma startswith_sep_slash_free (b : string) :
  PyStr.slash_free b = true -> PyStr.startswith_sep b = false.
Proof.
  destruct b as [|c b]; [reflexivity|]. intros H. simpl in H.
  apply andb_prop in H as [Hc _]. unfold PyStr.startswith_sep.
  change (String.prefix "/" (String c b))
    with (if Ascii.ascii_dec "/" c then String.prefix "" b else false).
  destruct (Ascii.ascii_dec "/" c) as [<-|]; [discriminate Hc | reflexivity].
Qed.

Lemma join_step_extends (p b : string) :
  PyStr.slash_free b = true -> exists r, PyStr.join_step p b = p +:+ r.
Proof.
  intros Hb. unfold PyStr.join_step. rewrite (startswith_sep_slash_free b Hb).
  destruct (String.eqb p "" || PyStr.endswith_sep p); eauto.
Qed.

Lemma fold_join_step_extends (l : list string) (p : string) :
  Forall (fun x => PyStr.slash_free x = true) l ->
  exists r, fold_left PyStr.join_step l p = p +:+ r.
Proof.
  revert p. induction l as [|b l IH]; intros p Hl.
  - exists "". now rewrite append_nil_r.
  - apply Forall_cons in Hl as [Hb Hl]. simpl.
    destruct (join_step_extends p b Hb) as [r1 ->].
    destruct (IH (p +:+ r1) Hl) as [r2 ->].
    exists (r1 +:+ r2). apply append_assoc.
Qed.

(** ** The layout of the cache, continued *)

(** X1.  The cache path of an item always lies, as a string, under the cache
    directory of the repository: whatever the URI, the path is [cache_dir]
    followed by the segments kept, and no segment of a URI can restart the
    path at the root the way an absolute argument of [os.path.join] does. *)
Theorem cache_path_extends_cache_dir (self : Xnat) (u : string) :
  exists r, cache_path self (Some u) = inr (cache_dir self +:+ r).
Proof.
  unfold cache_path, PyStr.op_join.
  destruct (fold_join_step_extends (drop 3 (PyStr.split "/" u)) (cache_dir self)) as [r Hr].
  - apply Forall_drop, split_slash_free.
  - exists r. now rewrite Hr.
Qed.

(** X2.  [dataset_cache_dir] keeps the datasets apart: two dataset names
    that are path segments (not empty, without ['/']) and that have the same
    cache directory are the same name. *)
Theorem dataset_cache_dir_injective (self : Xnat) (n1 n2 : string) :
  PyStr.segment n1 -> PyStr.segment n2 ->
  dataset_cache_dir self n1 = dataset_cache_dir self n2 -> n1 = n2.
Proof.
  intros H1 H2 E. unfold dataset_cache_dir in E.
  apply op_join_inj in E; [congruence | now constructor | now constructor].
Qed.

(** X3.  [dataset_cache_dir] does not confine a dataset to the cache
    directory: a dataset name that starts with ['/'] is returned as it is,
    the cache directory being dropped by [os.path.join]; a name that is a
    path segment gives a path that starts with the cache directory. *)
Theorem dataset_cache_dir_absolute (self : Xnat) (n : string) :
  (PyStr.startswith_sep n = true -> dataset_cache_dir self n = n) /\
  (PyStr.slash_free n = true -> exists r, dataset_cache_dir self n = cache_dir self +:+ r).
Proof.
  unfold dataset_cache_dir, PyStr.op_join. simpl fold_left. split.
  - intros H. unfold PyStr.join_step. now rewrite H.
  - intros H. now apply join_step_extends.
Qed.

(** ** URIs *)

(** X4.  The URI that [populate_items] keeps for a resource of a scan is the
    URI of the resource with its last segment, the identifier, replaced by
    the label; a URI without ['/'] is replaced by the label altogether. *)
Theorem label_uri_replaces_last (p i l : string) :
  PyStr.slash_free i = true ->
  label_uri (p +:+ "/" +:+ i) l = p +:+ "/" +:+ l /\
  label_uri i l = l.
Proof.
  intros Hi. unfold label_uri. split.
  - rewrite split_slash_app, (split_slash_one i Hi), removelast_last.
    rewrite join_snoc by apply split_nonempty. now rewrite join_split.
  - rewrite (split_slash_one i Hi). reflexivity.
Qed.

(** X5.  The URI of the scan that [dicom_header] asks the header of is the
    URI of the item without its first segment and without its last two (the
    word [resources] and the label of the resource): of
    [/a/r/b/c], with [a], [b] and [c] segments, it is [/r].  A URI of four
    pieces or fewer gives the root ['/']. *)
Theorem dicom_scan_uri_middle (g : FileGroup) (a r b c u : string) :
  PyStr.slash_free a = true -> PyStr.slash_free b = true -> PyStr.slash_free c = true ->
  (uri g = Some ("/" +:+ a +:+ "/" +:+ r +:+ "/" +:+ b +:+ "/" +:+ c) ->
   dicom_scan_uri g = inr ("/" +:+ r)) /\
  (uri g = Some u -> length (PyStr.split "/" u) <= 4 -> dicom_scan_uri g = inr "/").
Proof.
  intros Ha Hb Hc. unfold dicom_scan_uri, slice_2_m2. split.
  - intros ->.
    change ("/" +:+ a +:+ "/" +:+ r +:+ "/" +:+ b +:+ "/" +:+ c)
      with ("" +:+ "/" +:+ (a +:+ "/" +:+ (r +:+ "/" +:+ (b +:+ "/" +:+ c)))).
    rewrite !split_slash_app, (split_slash_one a Ha), (split_slash_one b Hb),
      (split_slash_one c Hc).
    change (PyStr.split "/" "") with [""].
    change (drop 2 ([""] ++ [a] ++ PyStr.split "/" r ++ [b] ++ [c]))
      with (PyStr.split "/" r ++ [b] ++ [c]).
    rewrite (app_assoc (PyStr.split "/" r) [b] [c]), removelast_last, removelast_last.
    now rewrite join_split.
  - intros -> Hlen. do 2 f_equal.
    destruct (PyStr.split "/" u) as [|x1 [|x2 [|x3 [|x4 [|x5 l]]]]]; try reflexivity.
    simpl in Hlen. lia.
Qed.

(** ** The name of the image in [make_command_json] *)

Lemma slash_free_tagged (n v : string) :
  PyStr.slash_free n = true -> PyStr.slash_free v = true ->
  PyStr.slash_free (n +:+ ":" +:+ v) = true.
Proof.
  intros Hn Hv. rewrite slash_free_app, Hn.
  change (":" +:+ v) with (String ":" v). simpl. exact Hv.
Qed.

Lemma split_tagged (n v : string) :
  char_free ":" n = true -> char_free ":" v = true ->
  PyStr.split ":" (n +:+ ":" +:+ v) = [n; v].
Proof.
  intros Hn Hv. change (n +:+ ":" +:+ v) with (n +:+ String ":" v).
  rewrite (split_app ":"), (split_free ":" n Hn), (split_free ":" v Hv). reflexivity.
Qed.

(** X6.  [make_command_json] reads the name of the analysis and its version
    off the second piece of the image name: an image [org/name:version] gives
    [(name, version)], and so does one with further pieces after a second
    ['/'], which are not looked at. *)
Theorem image_name_parts_accepts (org n v : string) :
  PyStr.slash_free org = true ->
  PyStr.slash_free n = true -> PyStr.slash_free v = true ->
  char_free ":" n = true -> char_free ":" v = true ->
  image_name_parts (org +:+ "/" +:+ n +:+ ":" +:+ v) = inr (n, v) /\
  forall t, image_name_parts (org +:+ "/" +:+ (n +:+ ":" +:+ v) +:+ "/" +:+ t) = inr (n, v).
Proof.
  intros Ho Hn Hv Hcn Hcv. unfold image_name_parts. split.
  - rewrite split_slash_app, (split_slash_one org Ho),
      (split_slash_one _ (slash_free_tagged n v Hn Hv)).
    change (([org] ++ [n +:+ ":" +:+ v]) !! 1) with (Some (n +:+ ":" +:+ v)).
    cbv beta iota. now rewrite split_tagged.
  - intros t.
    rewrite split_slash_app, (split_slash_one org Ho), split_slash_app,
      (split_slash_one _ (slash_free_tagged n v Hn Hv)).
    change (([org] ++ [n +:+ ":" +:+ v] ++ PyStr.split "/" t) !! 1)
      with (Some (n +:+ ":" +:+ v)).
    cbv beta iota. now rewrite split_tagged.
Qed.

(** X7.  [make_command_json] refuses, with an [ArcanaUsageError], an image
    name without organisation (no ['/']), one whose second piece has no tag
    (no [':']), and hence one that starts with the host of a registry,
    [host/org/name:tag], whose second piece is the organisation. *)
Theorem image_name_parts_rejects (s org n : string) :
  PyStr.slash_free org = true -> PyStr.slash_free n = true -> char_free ":" n = true ->
  (PyStr.slash_free s = true -> image_name_parts s = inl ArcanaUsageError) /\
  image_name_parts (org +:+ "/" +:+ n) = inl ArcanaUsageError /\
  forall t, image_name_parts (org +:+ "/" +:+ n +:+ "/" +:+ t) = inl ArcanaUsageError.
Proof.
  intros Ho Hn Hcn. unfold image_name_parts. split; [|split].
  - intros Hs. now rewrite (split_slash_one s Hs).
  - rewrite split_slash_app, (split_slash_one org Ho), (split_slash_one n Hn).
    change (([org] ++ [n]) !! 1) with (Some n).
    cbv beta iota. now rewrite (split_free ":" n Hcn).
  - intros t.
    rewrite split_slash_app, (split_slash_one org Ho), split_slash_app,
      (split_slash_one n Hn).
    change (([org] ++ [n] ++ PyStr.split "/" t) !! 1) with (Some n).
    cbv beta iota. now rewrite (split_free ":" n Hcn).
Qed.

(** ** Guards and short cuts of the methods *)

Section Guards.

Variable hierarchy : Clinical.t -> list Clinical.t.
Variable clinical_str : Clinical.t -> string.

(** X8.  An item that belongs to another repository is refused by both
    [get_file_group_paths] and [put_file_group] with
    [ArcanaWrongRepositoryError] before anything is done: the disk, the
    server, the item and the trace are as they were. *)
Theorem foreign_item_refused (self : Xnat) (w : World) (fmt : FileFormat) :
  data_format (item w) = Some fmt ->
  repository (data_node (item w)) <> ident self ->
  get_file_group_paths hierarchy clinical_str self w = (inl ArcanaWrongRepositoryError, w) /\
  put_file_group hierarchy clinical_str self w = (inl ArcanaWrongRepositoryError, w).
Proof.
  intros Hf Hr. apply Nat.eqb_neq in Hr. split.
  - unfold get_file_group_paths, bind at 1, get_item at 1. rewrite Hf.
    unfold bind at 1, _check_repository, bind at 1, get_item at 1. now rewrite Hr.
  - unfold put_file_group, bind at 1, get_item at 1. rewrite Hf.
    unfold bind at 1, _check_repository, bind at 1, get_item at 1. now rewrite Hr.
Qed.


(** X10.  Looking the URI of an item up is idempotent: once [resolve_uri]
    has returned, the item has a URI and a second call is a no-op that
    returns at once. *)
Theorem resolve_uri_idempotent (self : Xnat) (w w1 : World) :
  resolve_uri hierarchy clinical_str self w = (inr tt, w1) ->
  resolve_uri hierarchy clinical_str self w1 = (inr tt, w1).
Proof.
  intros H.
  apply (resolve_uri_effect hierarchy clinical_str) in H
    as (_ & _ & _ & _ & _ & _ & u & Hu & Hne).
  unfold resolve_uri, bind at 1, get_item at 1. rewrite Hu.
  unfold uri_unset. apply String.eqb_neq in Hne. now rewrite Hne.
Qed.

End Guards.

(** ** Storing an item: [put_file_group] *)

Section Put.

Variable hierarchy : Clinical.t -> list Clinical.t.
Variable clinical_str : Clinical.t -> string.

(** The binding of [name] at the start of [put_file_group] touches neither
    the disk nor the server. *)
Lemma bound_name_world (g : FileGroup) (w w1 : World) (r : result (option string)) :
  (if uri_unset (uri g) then
     let* w0 := get_world in
     let* n := lift (escape_name hierarchy clinical_str g) in
     let* _ := assign_uri (node_uri (remote w0) +:+ "/resources/" +:+ n) in
     ret (Some n)
   else ret None) w = (r, w1) ->
  fs w1 = fs w /\ remote w1 = remote w /\ trace w1 = trace w /\ clock w1 = clock w.
Proof.
  destruct (uri_unset (uri g)).
  - unfold bind, get_world, lift, assign_uri, ret.
    destruct (escape_name hierarchy clinical_str g); intros [= <- <-]; repeat split.
  - intros [= <- <-]. repeat split.
Qed.

Lemma put_in_cache_directory (self : Xnat) (fmt : FileFormat) (w w' : World)
    (r : result (option string)) :
  directory fmt = true ->
  put_in_cache hierarchy clinical_str self fmt w = (r, w') ->
  (exists e, r = inl e) /\ remote w' = remote w.
Proof.
  intros Hd H. unfold put_in_cache in H. rewrite Hd in H.
  unfold bind at 1, get_item at 1 in H.
  apply bind_cases in H as [(e & H & ->)|(bn & w1 & Hbn & H)].
  - apply bound_name_world in H as (_ & Hr & _). eauto.
  - apply bound_name_world in Hbn as (_ & <- & _).
    unfold bind at 1, get_item at 1 in H. unfold bind at 1, lift at 1 in H.
    destruct (cache_path self (uri (item w1))) as [e|cp].
    { injection H as <- <-. eauto. }
    unfold bind at 1, path_exists at 1 in H.
    destruct (fs w1 !! cp) as [nd|] eqn:Hcp.
    + unfold bind at 1, rmtree at 1 in H. rewrite Hcp in H.
      destruct nd as [?|t es x].
      { injection H as <- <-. eauto. }
      unfold write_disk at 1 in H.
      unfold bind at 1, makedirs at 1 in H. cbn [fs log set_fs] in H.
      rewrite lookup_delete_eq in H. unfold write_disk at 1 in H.
      unfold bind at 1, copytree at 1 in H. cbn [fs log set_fs] in H.
      rewrite lookup_insert_eq in H. injection H as <- <-. eauto.
    + unfold ret at 1, bind at 1 in H.
      unfold bind at 1, makedirs at 1 in H. rewrite Hcp in H.
      unfold write_disk at 1 in H.
      unfold bind at 1, copytree at 1 in H. cbn [fs log set_fs] in H.
      rewrite lookup_insert_eq in H. injection H as <- <-. eauto.
Qed.


(** *** What the steps leave alone *)

Lemma keeps_item_bind {A B} (m : M A) (k : A -> M B) :
  keeps_item m -> (forall a, keeps_item (k a)) -> keeps_item (bind m k).
Proof.
  intros Hm Hk w r w' H. apply bind_cases in H as [(e & H & ->)|(a & w1 & H & H')].
  - now apply Hm in H.
  - apply Hm in H as [E1 E2]. apply Hk in H' as [E3 E4]. split; congruence.
Qed.

Lemma keeps_item_try_except_else {A B} (m : M A) (h : exn -> M B) (k : A -> M B) :
  keeps_item m -> (forall e, keeps_item (h e)) -> (forall a, keeps_item (k a)) ->
  keeps_item (try_except_else m h k).
Proof.
  intros Hm Hh Hk w r w' H. unfold try_except_else in H.
  destruct (m w) as [[e|a] w1] eqn:E; apply Hm in E as [E1 E2].
  - apply Hh in H as [E3 E4]. split; congruence.
  - apply Hk in H as [E3 E4]. split; congruence.
Qed.

Lemma keeps_item_for_each {A} (l : list A) (body : A -> M unit) :
  (forall x, keeps_item (body x)) -> keeps_item (for_each l body).
Proof.
  intros Hb. induction l as [|x l IH]; simpl.
  - intros w r w' [= _ <-]. now split.
  - apply keeps_item_bind; auto.
Qed.

Ltac split_run H :=
  repeat match type of H with
         | context [match ?x with _ => _ end] => destruct x
         end;
  try discriminate H; injection H as <- <-.

Ltac keeps_prim :=
  let H_ := fresh "H_" in
  intros w_ r_ w'_ H_;
  cbv beta delta [ret raise lift get_item get_world path_exists json_load
                  glob_files listdir dir_modtime xnode_resource xnode_scan
                  walk_files makedirs makedirs_exist_ok mkdir rmtree open_w
                  json_dump open_wb_in write_in extractall move_data copyfile
                  copytree get_json write_disk resource_delete resource_create
                  upload write_resources] in H_;
  split_run H_; split; reflexivity.

Ltac keeps_go :=
  repeat first
    [ apply keeps_item_bind; [|intros ?]
    | apply keeps_item_try_except_else; [|intros ?|intros ?]
    | apply keeps_item_for_each; intros ?
    | progress cbv zeta
    | match goal with
      | |- keeps_item (match ?x with _ => _ end) => destruct x
      | |- keeps_item (if ?x then _ else _) => destruct x
      end
    | solve [keeps_prim] ].

Lemma keeps_item_write_manifest (cp : string) (cs : gmap string string) :
  keeps_item (write_manifest cp cs).
Proof. unfold write_manifest. keeps_go. Qed.

Lemma keeps_item_put_provenance (self : Xnat) (prov : string) :
  keeps_item (put_provenance hierarchy clinical_str self prov).
Proof. unfold put_provenance. keeps_go. Qed.

(** The binding of [name] that [put_in_cache] returns: none for an item
    that has a URI. *)
Lemma put_in_cache_unbound (self : Xnat) (fmt : FileFormat) (w w1 : World)
    (bn : option string) :
  uri_unset (uri (item w)) = false ->
  put_in_cache hierarchy clinical_str self fmt w = (inr bn, w1) -> bn = None.
Proof.
  intros Hu H. unfold put_in_cache, bind at 1, get_item at 1 in H. rewrite Hu in H.
  unfold bind at 1, ret at 1 in H.
  repeat (apply bind_inr in H as (? & ? & _ & H)).
  now injection H as <- _.
Qed.

(** X12.  An item that already has a URI can never be stored:
    [put_file_group] binds [name] only when it makes the URI, and reads it
    afterwards in either case.  Every call ends in an exception, and no
    resource that the node had is removed. *)
Theorem put_file_group_with_uri_fails (self : Xnat) (w w' : World) (r : result unit) :
  uri_unset (uri (item w)) = false ->
  put_file_group hierarchy clinical_str self w = (r, w') ->
  (exists e, r = inl e) /\
  forall n, is_Some (resources (remote w) !! n) -> is_Some (resources (remote w') !! n).
Proof.
  intros Hu H. unfold put_file_group, bind at 1, get_item at 1 in H.
  destruct (data_format (item w)) as [fmt|]; [|injection H as <- <-; eauto].
  unfold bind at 1, _check_repository, bind at 1, get_item at 1 in H.
  destruct (repository (data_node (item w)) =? ident self);
    [|injection H as <- <-; eauto].
  unfold ret at 1 in H.
  apply bind_cases in H as [(e & H & ->)|(bn & w1 & Hbn & H)].
  - split; [eauto|]. intros n Hn.
    now destruct (put_in_cache_keeps hierarchy clinical_str self fmt n _ _ _ Hn H).
  - pose proof (put_in_cache_unbound self fmt w w1 bn Hu Hbn) as ->.
    injection H as <- <-. split; [eauto|]. intros n Hn.
    now destruct (put_in_cache_keeps hierarchy clinical_str self fmt n _ _ _ Hn Hbn).
Qed.

(** The item after the copy into the cache: the item as it was, with the
    URI made from the node and the escaped name. *)
Lemma put_in_cache_item (self : Xnat) (fmt : FileFormat) (w w1 : World) (n : string) :
  put_in_cache hierarchy clinical_str self fmt w = (inr (Some n), w1) ->
  uri_unset (uri (item w)) = true /\
  item w1 = item (assign_uri (node_uri (remote w) +:+ "/resources/" +:+ n) w).2 /\
  node_uri (remote w1) = node_uri (remote w).
Proof.
  intros H. pose proof (put_in_cache_name hierarchy clinical_str self fmt w w1 n H) as Hn.
  destruct (uri_unset (uri (item w))) eqn:Hu.
  - split; [reflexivity|].
    unfold put_in_cache, bind at 1, get_item at 1 in H. rewrite Hu in H.
    apply bind_inr in H as (bn & wa & Hb & H).
    unfold bind, get_world, lift, assign_uri, ret in Hb. rewrite Hn in Hb.
    injection Hb as <- <-.
    match type of H with
    | ?m ?w0 = _ =>
        assert (K : keeps_item m) by keeps_go
    end.
    apply K in H as [Hi Hr]. split; [exact Hi | exact Hr].
  - apply (put_in_cache_unbound self fmt w w1 _ Hu) in H. discriminate H.
Qed.

(** The uploads to a resource add the names given to its files, in order. *)
Lemma uploads_append (n : string) (l : list (string * string)) (w : World) (x : XResource) :
  resources (remote w) !! n = Some x ->
  exists w',
    for_each l (fun sc => upload n sc.1) w = (inr tt, w') /\
    resources (remote w') !! n
      = Some {| label := label x; format := format x; uploaded := uploaded x ++ l.*1 |} /\
    item w' = item w.
Proof.
  revert w x. induction l as [|a l IH]; intros w x Hx.
  - exists w. split; [reflexivity|]. split; [|reflexivity].
    rewrite Hx. destruct x. cbn. now rewrite app_nil_r.
  - cbn [for_each]. unfold bind at 1, upload at 1, write_resources at 1.
    match goal with
    | |- context [for_each l _ ?w2] =>
        destruct (IH w2 {| label := label x; format := format x;
                           uploaded := uploaded x ++ [a.1] |}) as (w' & Hf & Hres & Hi)
    end.
    + cbn [remote log set_remote set_resources resources].
      rewrite lookup_alter_eq, Hx. reflexivity.
    + exists w'. split; [exact Hf|]. split; [|exact Hi].
      rewrite Hres. cbn. now rewrite <- app_assoc.
Qed.

(** X13.  What a call of [put_file_group] that returns has done.  The item
    had no URI and its format is not a directory; it now has the URI made
    from the node of the item and the escaped name, and the node has a
    resource of that name, of the format of the item, that holds the primary
    file and the side cars of the item under their names, in this order, and
    nothing else: files that an earlier resource of that name held are
    gone. *)
Theorem put_file_group_stores (self : Xnat) (w w' : World) :
  put_file_group hierarchy clinical_str self w = (inr tt, w') ->
  exists n,
    escape_name hierarchy clinical_str (item w) = inr n /\
    uri_unset (uri (item w)) = true /\
    uri (item w') = Some (node_uri (remote w) +:+ "/resources/" +:+ n) /\
    resources (remote w') !! n
      = Some {| label := n; format := data_format_name (item w);
                uploaded := fname (item w) :: (aux_file_fnames_and_paths (item w)).*1 |}.
Proof.
  intros H. unfold put_file_group, bind at 1, get_item at 1 in H.
  destruct (data_format (item w)) as [fmt|] eqn:Hf; [|discriminate H].
  unfold bind at 1, _check_repository, bind at 1, get_item at 1 in H.
  destruct (repository (data_node (item w)) =? ident self); [|discriminate H].
  unfold ret at 1 in H.
  apply bind_inr in H as (bn & w1 & Hbn & H).
  destruct bn as [n|]; [|discriminate H].
  destruct (directory fmt) eqn:Hd.
  { apply put_in_cache_directory in Hbn as [[e He] _]; [discriminate He | assumption]. }
  pose proof (put_in_cache_name hierarchy clinical_str self fmt w w1 n Hbn) as Hn.
  destruct (put_in_cache_item self fmt w w1 n Hbn) as (Hu & Hi & _).
  exists n. split; [exact Hn|]. split; [exact Hu|].
  unfold replace_resource in H. rewrite Hd in H.
  unfold bind at 1, get_item at 1 in H.
  apply bind_inr in H as ([] & w2 & Hdel & H).
  assert (Hi2 : item w2 = item w1).
  { assert (K : keeps_item (try_except_else (xnode_resource n)
                 (fun e => if bool_decide (e = KeyError) then ret tt else raise e)
                 (fun _ => resource_delete n))) by keeps_go.
    now apply K in Hdel. }
  unfold bind at 1, resource_create at 1, write_resources at 1 in H.
  unfold bind at 1, upload at 1, write_resources at 1 in H.
  match type of H with
  | for_each _ _ ?w4 = _ =>
      destruct (uploads_append n (aux_file_fnames_and_paths (item w1)) w4
                  {| label := n; format := data_format_name (item w1);
                     uploaded := [fname (item w1)] |}) as (w5 & Hf5 & Hres & Hi5)
  end.
  { cbn [remote log set_remote set_resources resources].
    rewrite lookup_alter_eq, lookup_insert_eq. reflexivity. }
  rewrite Hf5 in H. injection H as <-.
  rewrite Hi5. cbn [item log set_remote]. rewrite Hi2.
  rewrite Hres, Hi. cbn. split; reflexivity.
Qed.

(** X14.  What a call of [put_provenance] that returns has done.  The
    record is written to the file [<escaped name>.json] in the cache
    directory of the provenance resource of the node, and uploaded under
    that name to the resource, which is created with the format
    [PROVENANCE] if the node had none and which otherwise keeps the files it
    had; the other resources of the node are untouched. *)
Theorem put_provenance_uploads (self : Xnat) (prov : string) (w w' : World) :
  put_provenance hierarchy clinical_str self prov w = (inr tt, w') ->
  exists pr n,
    PROV_RESOURCE self = Some pr /\
    escape_name hierarchy clinical_str (item w) = inr n /\
    resources (remote w') !! pr
      = Some (match resources (remote w) !! pr with
              | Some x => {| label := label x; format := format x;
                             uploaded := uploaded x ++ [n +:+ ".json"] |}
              | None => {| label := pr; format := "PROVENANCE";
                           uploaded := [n +:+ ".json"] |}
              end) /\
    (forall l, l <> pr -> resources (remote w') !! l = resources (remote w) !! l) /\
    exists t es x,
      fs w' !! cache_of self (node_uri (remote w) +:+ "/resources/" +:+ pr)
        = Some (Dir t es x) /\
      es !! (n +:+ ".json") = Some (Bytes prov).
Proof.
  intros H. unfold put_provenance in H. unfold bind at 1, get_world at 1 in H.
  destruct (PROV_RESOURCE self) as [pr|]; [|discriminate H].
  unfold bind at 1, lift at 1, cache_path at 1 in H.
  fold (cache_of self (node_uri (remote w) +:+ "/resources/" +:+ pr)) in H.
  set (cp := cache_of self (node_uri (remote w) +:+ "/resources/" +:+ pr)) in *.
  exists pr.
  assert (Hend : forall (w0 : World) t es x,
             remote w0 = remote w -> item w0 = item w ->
             fs w0 !! cp = Some (Dir t es x) ->
             (let* g := get_item in
              let* n := lift (escape_name hierarchy clinical_str g) in
              let* _ := write_in cp (n +:+ ".json") (Bytes prov) in
              let* _ := try_except_else (xnode_resource pr)
                          (fun e => if bool_decide (e = KeyError)
                                    then resource_create pr "PROVENANCE"
                                    else raise e)
                          (fun _ => ret tt) in
              upload pr (n +:+ ".json")) w0 = (inr tt, w') ->
             exists n, Some pr = Some pr /\
               escape_name hierarchy clinical_str (item w) = inr n /\
               resources (remote w') !! pr
               = Some (match resources (remote w) !! pr with
                       | Some x => {| label := label x; format := format x;
                                      uploaded := uploaded x ++ [n +:+ ".json"] |}
                       | None => {| label := pr; format := "PROVENANCE";
                                    uploaded := [n +:+ ".json"] |}
                       end) /\
               (forall l, l <> pr -> resources (remote w') !! l = resources (remote w) !! l) /\
               exists t es x,
                 fs w' !! cp = Some (Dir t es x) /\
                 es !! (n +:+ ".json") = Some (Bytes prov)).
  { clear H. intros w0 t es x Hr Hi Hcp H.
    unfold bind at 1, get_item at 1 in H. rewrite Hi in H.
    unfold bind at 1, lift at 1 in H.
    destruct (escape_name hierarchy clinical_str (item w)) as [e|n]; [discriminate H|].
    exists n. split; [reflexivity|]. split; [reflexivity|].
    unfold bind at 1, write_in at 1 in H. rewrite Hcp in H.
    unfold write_disk at 1 in H.
    unfold bind at 1, try_except_else at 1, xnode_resource at 1 in H.
    cbn [remote log set_fs] in H. rewrite Hr in H.
    destruct (resources (remote w) !! pr) as [xr|] eqn:Hpr.
    - unfold ret at 1, upload, write_resources in H. injection H as <-.
      cbn [remote log set_fs set_remote set_resources resources fs].
      rewrite Hr. split; [now rewrite lookup_alter_eq, Hpr|].
      split; [intros l Hl; now rewrite lookup_alter_ne by congruence|].
      rewrite lookup_insert_eq. eexists _, _, _. split; [reflexivity|].
      apply lookup_insert_eq.
    - rewrite bool_decide_eq_true_2 in H by reflexivity.
      unfold resource_create at 1, write_resources at 1, upload, write_resources in H.
      injection H as <-.
      cbn [remote log set_fs set_remote set_resources resources fs].
      rewrite Hr. split; [now rewrite lookup_alter_eq, lookup_insert_eq|].
      split; [intros l Hl; rewrite lookup_alter_ne by congruence;
              now rewrite lookup_insert_ne by congruence|].
      rewrite lookup_insert_eq. eexists _, _, _. split; [reflexivity|].
      apply lookup_insert_eq. }
  unfold bind at 1, makedirs_exist_ok at 1 in H.
  destruct (fs w !! cp) as [[?|t es x]|] eqn:Hcp; [discriminate H| |].
  - eapply Hend in H; [| reflexivity | reflexivity | exact Hcp].
    destruct H as (n & HH). exists n. exact HH.
  - unfold write_disk at 1 in H.
    eapply Hend in H; [| reflexivity | reflexivity
                       | cbn [fs log set_fs]; apply lookup_insert_eq].
    destruct H as (n & HH). exists n. exact HH.
Qed.

End Put.

(** ** Waiting for another download: [_delayed_download] *)

Lemma events_log (e : event) (w : World) : events (log e w) = events w ++ [e].
Proof. unfold events, log. cbn [trace]. now rewrite !fmap_app. Qed.

(** X15.  While other processes keep writing into the download directory,
    [_delayed_download] only waits: it never takes the download over and
    never returns.  With the directory changing during each of the next
    [depth] sleeps and the cache path still missing, the method sleeps
    [depth] times, transfers nothing, and ends in the [RecursionError] of the
    interpreter, the cache path still missing. *)
Theorem delayed_download_waits_forever (self : Xnat) (depth delay : nat)
    (tmp u cp : string) (w : World) (t : nat) (es : gmap string fdata)
    (x : option (option (gmap string string))) :
  still_downloading tmp cp (others w) ->
  depth <= length (others w) ->
  fs w !! tmp = Some (Dir t es x) ->
  fs w !! cp = None ->
  exists w',
    _delayed_download depth self tmp u cp delay w = (inl RecursionError, w') /\
    events w' = events w ++ repeat (Sleep delay) depth /\
    fs w' !! cp = None.
Proof.
  revert w t es x. induction depth as [|depth IH]; intros w t es x Hbusy Hlen Htmp Hcp.
  - exists w. split; [reflexivity|]. split; [|exact Hcp].
    cbn [repeat]. now rewrite app_nil_r.
  - destruct (others w) as [|a rest] eqn:Ho; [simpl in Hlen; lia|].
    apply Forall_cons in Hbusy as [Ha Hrest].
    destruct (Ha (fs w) t es x Htmp Hcp) as (Hcp' & t' & es' & x' & Htmp' & Hne).
    cbn [_delayed_download].
    unfold bind at 1, dir_modtime at 1. rewrite Htmp.
    unfold bind at 1, sleep at 1. rewrite Ho. cbn [tail].
    unfold bind at 1, path_exists at 1. cbn [fs log]. rewrite Hcp'.
    unfold bind at 1, dir_modtime at 1. cbn [fs log]. rewrite Htmp'.
    apply Nat.eqb_neq in Hne. rewrite Nat.eqb_sym in Hne. rewrite Hne. cbn [negb].
    match goal with
    | |- context [_delayed_download depth self tmp u cp delay ?w2] =>
        destruct (IH w2 t' es' x') as (w' & Hrun & Hev & Hc)
    end.
    + exact Hrest.
    + simpl in Hlen. cbn [others log]. lia.
    + exact Htmp'.
    + exact Hcp'.
    + exists w'. split; [exact Hrun|]. split; [|exact Hc].
      rewrite Hev, events_log. unfold events at 1. cbn [trace].
      fold (events w). cbn [repeat]. now rewrite <- app_assoc.
Qed.

(** ** Downloading an item *)



Section Fetch.

Variable hierarchy : Clinical.t -> list Clinical.t.
Variable clinical_str : Clinical.t -> string.


End Fetch.

(** ** The further statements on concrete objects *)

Lemma dataset_cache_dir_injective_witness :
  PyStr.segment "P" /\ PyStr.segment "P" /\
  dataset_cache_dir Fixture.repo "P" = dataset_cache_dir Fixture.repo "P" /\ "P" = "P".
Proof.
  assert (H : PyStr.segment "P") by (split; [discriminate | reflexivity]).
  split; [exact H|]. split; [exact H|]. split; [reflexivity|].
  apply (dataset_cache_dir_injective Fixture.repo "P" "P" H H). reflexivity.
Defined.

Lemma dataset_cache_dir_absolute_witness :
  dataset_cache_dir Fixture.repo "/etc" = "/etc" /\
  exists r, dataset_cache_dir Fixture.repo "P" = "/cache" +:+ r.
Proof.
  split.
  - apply (dataset_cache_dir_absolute Fixture.repo "/etc"). reflexivity.
  - apply (dataset_cache_dir_absolute Fixture.repo "P"). reflexivity.
Defined.

Lemma label_uri_replaces_last_witness :
  label_uri (Fixture.session_uri +:+ "/scans/1/resources/123") "NIFTI" = Fixture.scan_uri /\
  label_uri "123" "NIFTI" = "NIFTI".
Proof.
  apply (label_uri_replaces_last (Fixture.session_uri +:+ "/scans/1/resources") "123" "NIFTI").
  reflexivity.
Defined.

Lemma dicom_scan_uri_middle_witness :
  dicom_scan_uri Fixture.scan
  = inr "/archive/projects/P/subjects/S01/experiments/S01_MR1/scans/1".
Proof.
  apply (dicom_scan_uri_middle Fixture.scan "data"
           "archive/projects/P/subjects/S01/experiments/S01_MR1/scans/1"
           "resources" "NIFTI" ""); reflexivity.
Defined.

Lemma image_name_parts_accepts_witness :
  image_name_parts "australianimagingservice/dwiqa:0.1" = inr ("dwiqa", "0.1").
Proof.
  apply (image_name_parts_accepts "australianimagingservice" "dwiqa" "0.1"); reflexivity.
Defined.

Lemma image_name_parts_rejects_witness :
  image_name_parts "dwiqa" = inl ArcanaUsageError /\
  image_name_parts "ghcr.io/australianimagingservice/dwiqa:0.1" = inl ArcanaUsageError.
Proof.
  destruct (image_name_parts_rejects "dwiqa" "ghcr.io" "australianimagingservice")
    as (H1 & _ & H3); try reflexivity.
  split; [apply H1; reflexivity | apply (H3 "dwiqa:0.1")].
Defined.

Lemma foreign_item_refused_witness :
  let w := Fixture.world Sample.foreign Fixture.good_zip ∅ in
  get_file_group_paths Fixture.layers Fixture.member_name Fixture.repo w
  = (inl ArcanaWrongRepositoryError, w) /\
  put_file_group Fixture.layers Fixture.member_name Fixture.repo w
  = (inl ArcanaWrongRepositoryError, w).
Proof.
  apply (foreign_item_refused Fixture.layers Fixture.member_name Fixture.repo
           (Fixture.world Sample.foreign Fixture.good_zip ∅) Fixture.nifti).
  - reflexivity.
  - vm_compute. discriminate.
Defined.


Lemma resolve_uri_idempotent_witness :
  let w := Fixture.world Fixture.derivative Fixture.good_zip ∅ in
  let w1 := (resolve_uri Fixture.layers Fixture.member_name Fixture.repo w).2 in
  resolve_uri Fixture.layers Fixture.member_name Fixture.repo w1 = (inr tt, w1).
Proof.
  apply (resolve_uri_idempotent Fixture.layers Fixture.member_name Fixture.repo
           (Fixture.world Fixture.derivative Fixture.good_zip ∅)).
  vm_compute. reflexivity.
Defined.


Lemma put_file_group_with_uri_fails_witness :
  let w := Fixture.world Fixture.scan Fixture.good_zip
             {[ "/work/t1w.nii" := File (Bytes "NIFTI-DATA") ]} in
  let c := put_file_group Fixture.layers Fixture.member_name Fixture.repo w in
  (exists e, c.1 = inl e) /\
  forall n, is_Some (resources (remote w) !! n) -> is_Some (resources (remote c.2) !! n).
Proof.
  apply (put_file_group_with_uri_fails Fixture.layers Fixture.member_name Fixture.repo
           (Fixture.world Fixture.scan Fixture.good_zip
              {[ "/work/t1w.nii" := File (Bytes "NIFTI-DATA") ]})).
  - vm_compute. reflexivity.
  - apply surjective_pairing.
Defined.

Lemma put_file_group_stores_witness :
  let w := Fixture.world Fixture.derivative Fixture.good_zip Fixture.workdir in
  let w' := (put_file_group Fixture.layers Fixture.member_name Fixture.repo w).2 in
  exists n,
    escape_name Fixture.layers Fixture.member_name (item w) = inr n /\
    uri_unset (uri (item w)) = true /\
    uri (item w') = Some (node_uri (remote w) +:+ "/resources/" +:+ n) /\
    resources (remote w') !! n
      = Some {| label := n; format := data_format_name (item w);
                uploaded := fname (item w) :: (aux_file_fnames_and_paths (item w)).*1 |}.
Proof.
  apply (put_file_group_stores Fixture.layers Fixture.member_name Fixture.repo
           (Fixture.world Fixture.derivative Fixture.good_zip Fixture.workdir)).
  vm_compute. reflexivity.
Defined.

Lemma put_provenance_uploads_witness :
  let w := Fixture.world Fixture.derivative Fixture.good_zip ∅ in
  let w' := (put_provenance Fixture.layers Fixture.member_name Sample.recording
               "PROV-RECORD" w).2 in
  exists pr n,
    PROV_RESOURCE Sample.recording = Some pr /\
    escape_name Fixture.layers Fixture.member_name (item w) = inr n /\
    resources (remote w') !! pr
      = Some (match resources (remote w) !! pr with
              | Some x => {| label := label x; format := format x;
                             uploaded := uploaded x ++ [n +:+ ".json"] |}
              | None => {| label := pr; format := "PROVENANCE";
                           uploaded := [n +:+ ".json"] |}
              end) /\
    (forall l, l <> pr -> resources (remote w') !! l = resources (remote w) !! l) /\
    exists t es x,
      fs w' !! cache_of Sample.recording (node_uri (remote w) +:+ "/resources/" +:+ pr)
        = Some (Dir t es x) /\
      es !! (n +:+ ".json") = Some (Bytes "PROV-RECORD").
Proof.
  apply (put_provenance_uploads Fixture.layers Fixture.member_name Sample.recording
           "PROV-RECORD" (Fixture.world Fixture.derivative Fixture.good_zip ∅)).
  vm_compute. reflexivity.
Defined.

Lemma delayed_download_waits_forever_witness :
  exists w',
    _delayed_download 2 Fixture.repo (marker_of Fixture.cache) Fixture.scan_uri
      Fixture.cache 30 Sample.busy = (inl RecursionError, w') /\
    events w' = events Sample.busy ++ repeat (Sleep 30) 2 /\
    fs w' !! Fixture.cache = None.
Proof.
  apply (delayed_download_waits_forever Fixture.repo 2 30 (marker_of Fixture.cache)
           Fixture.scan_uri Fixture.cache Sample.busy 5 ∅ None).
  - assert (H : forall d t es x,
               d !! marker_of Fixture.cache = Some (Dir t es x) ->
               d !! Fixture.cache = None ->
               Sample.touch (marker_of Fixture.cache) d !! Fixture.cache = None /\
               exists t' es' x',
                 Sample.touch (marker_of Fixture.cache) d !! marker_of Fixture.cache
                 = Some (Dir t' es' x') /\ t' <> t).
    { intros d t es x Hm Hc. unfold Sample.touch. rewrite Hm. split.
      - rewrite lookup_insert_ne by (symmetry; apply cache_ne_tmp). exact Hc.
      - exists (S t), es, x. rewrite lookup_insert_eq. split; [reflexivity | lia]. }
    unfold still_downloading. cbn [others Sample.busy].
    apply Forall_cons. split; [exact H|].
    apply Forall_cons. split; [exact H|]. constructor.
  - simpl. lia.
  - vm_compute. reflexivity.
  - vm_compute. reflexivity.
Defined.

